(** * Credential resolution of the Barbican command-line client

    A shallow embedding of [barbicanclient/barbican.py]: the three helper
    methods of class [Barbican] and [initialize_app], with the properties
    of the credential resolver stated over them.

    Python values are modelled as follows.
    - An option of the parsed argument namespace holds [None] or a [str];
      it is a [pyval].  Its truth value is the one Python gives it: [None]
      and the empty string are false, every other string is true.
    - The two [store_true] flags ([no_auth], [insecure]) are [bool].
    - A keyword dictionary is a finite map from key to [pyval].
    - The constructors of the collaborating libraries ([identity.v2],
      [identity.v3], [session.Session], [client.Client]) are free
      constructors that record the arguments they were called with.
      Whether a library constructor accepts the keywords it is given is
      outside the model: the only exceptions of a modelled run are those of
      the [raise] statements of the file.  A statement that a run returns
      is therefore made only where the constructor is called with keywords
      it declares (the no-auth client and the password credentials); for
      token mode the statements speak of the checks, of the dictionary
      built, and of runs that return.
    - The application object carries what [initialize_app] touches: the
      text written to [self.stderr], the attribute [self.client], and the
      usage text of [self.parser]. *)

From Stdlib Require Import Ascii String.
From stdpp Require Import base option list strings gmap fin_maps.

Local Open Scope string_scope.

(** ** Python values and operators *)

Module Py.

Definition pyval : Type := option string.

(** [bool(v)] *)
Definition truthy (v : pyval) : bool :=
  match v with
  | Some (String _ _) => true
  | Some EmptyString => false
  | None => false
  end.

(** [not v] *)
Definition py_not (v : pyval) : bool := negb (truthy v).

(** [a or b]: the first operand when it is true, else the second. *)
Definition py_or (a b : pyval) : pyval := if truthy a then a else b.

(** [a and b]: the first operand when it is false, else the second. *)
Definition py_and (a b : pyval) : pyval := if truthy a then b else a.

(** [all(l)] and [any(l)] *)
Definition py_all (l : list pyval) : bool := forallb truthy l.
Definition py_any (l : list pyval) : bool := existsb truthy l.

(** [dict((k, v) for (k, v) in six.iteritems(d) if v)] *)
Definition populated (d : gmap string pyval) : gmap string pyval :=
  filter (λ kv, truthy kv.2 = true) d.

End Py.
Export Py.

Infix "`or`" := py_or (at level 50, left associativity).
Infix "`and`" := py_and (at level 40, left associativity).

(** ** Data *)

(** The parsed options, [self.options]; one field per option the code
    reads.  [insecure] is registered by [session.Session.register_cli_options]. *)
Record Options : Type := mkOptions {
  no_auth : bool;
  os_identity_api_version : pyval;
  os_auth_url : pyval;
  os_username : pyval;
  os_user_id : pyval;
  os_password : pyval;
  os_user_domain_id : pyval;
  os_user_domain_name : pyval;
  os_tenant_name : pyval;
  os_tenant_id : pyval;
  os_project_id : pyval;
  os_project_name : pyval;
  os_project_domain_id : pyval;
  os_project_domain_name : pyval;
  os_auth_token : pyval;
  endpoint : pyval;
  insecure : bool
}.

(** The credential constructors [identity.v3.Token], [identity.v2.Token],
    [identity.v3.Password] and [identity.v2.Password], each called with a
    keyword dictionary. *)
Inductive Auth : Type :=
  | V3Token (kwargs : gmap string pyval)
  | V2Token (kwargs : gmap string pyval)
  | V3Password (kwargs : gmap string pyval)
  | V2Password (kwargs : gmap string pyval).

(** [session.Session(auth=..., verify=...)] *)
Record Session : Type := mkSession {
  session_auth : Auth;
  session_verify : bool
}.

(** The two shapes [client.Client] is called with. *)
Inductive Client : Type :=
  | ClientNoAuth (endpoint : pyval) (project_id : pyval) (verify : bool)
  | ClientSession (session : Session) (endpoint : pyval).

(** The part of the [Barbican] object that [initialize_app] reads or writes. *)
Record App : Type := mkApp {
  stderr : list string;          (* chunks written to self.stderr, oldest first *)
  client : option Client;        (* self.client; None while the attribute is not set *)
  parser_usage : string          (* self.parser.format_usage() *)
}.

Definition new_app (usage : string) : App :=
  {| stderr := []; client := None; parser_usage := usage |}.

(** ** Methods run in a state-and-exception monad over [App] *)

Inductive outcome (A : Type) : Type :=
  | Returned (a : A)
  | Raised (msg : string).
Arguments Returned {A} a.
Arguments Raised {A} msg.

Definition M (A : Type) : Type := App → App * outcome A.

Definition ret {A} (a : A) : M A := λ app, (app, Returned a).

Definition raise {A} (msg : string) : M A := λ app, (app, Raised msg).

Definition bind {A B} (m : M A) (k : A → M B) : M B :=
  λ app,
    match m app with
    | (app', Returned a) => k a app'
    | (app', Raised msg) => (app', Raised msg)
    end.

(** The monad is registered with stdpp's classes, which gives the notations
    [x ← m; k] and [m;; k] for sequencing. *)
#[global] Instance M_ret : MRet M := @ret.
#[global] Instance M_bind : MBind M := λ A B k m, bind m k.

(** [self.stderr.write(s)] *)
Definition stderr_write (s : string) : M unit :=
  λ app, ({| stderr := stderr app ++ [s]; client := client app;
             parser_usage := parser_usage app |}, Returned tt).

(** [self.parser.format_usage()] *)
Definition format_usage : M string := λ app, (app, Returned (parser_usage app)).

(** [self.client = c] *)
Definition set_client (c : Client) : M unit :=
  λ app, ({| stderr := stderr app; client := Some c;
             parser_usage := parser_usage app |}, Returned tt).

(** ** The source *)

Definition _DEFAULT_IDENTITY_API_VERSION : string := "3.0".

(** The messages of the exceptions the file raises. *)
Definition MSG_CONFLICT : string :=
  "ERROR: argument --os-auth-url/-A: not allowed with argument --no-auth/-N".
Definition MSG_V3_COMBINATION : string :=
  "ERROR: please specify the following --os-project-id or--os-project-name and --os-project-domain-name or --os-project-name and --os-project-domain-id".
Definition MSG_V2_COMBINATION : string :=
  "ERROR: please specify --os-tenant-id or--os-tenant-name".
Definition MSG_NO_AUTH_MISSING : string :=
  "ERROR: please specify --endpoint and --os-project-id(or --os-tenant-id)".
Definition MSG_MISSING_AUTH_URL : string :=
  "ERROR: please specify --os-auth-url".
Definition MSG_MISSING_CREDENTIALS : string :=
  "ERROR: please specify authentication credentials".

(** [not api_version or api_version == _DEFAULT_IDENTITY_API_VERSION] *)
Definition keystone_v3 (api_version : pyval) : bool :=
  py_not api_version || bool_decide (api_version = Some _DEFAULT_IDENTITY_API_VERSION).

(** [_assert_no_auth_and_auth_url_mutually_exclusive], lines 125-129. *)
Definition _assert_no_auth_and_auth_url_mutually_exclusive
    (no_auth : bool) (auth_url : pyval) : M unit :=
  if no_auth && truthy auth_url then raise MSG_CONFLICT else ret tt.

(** [_check_auth_arguments], lines 131-167.  The local [msg] is bound only
    on the failing paths; it is [None] while unbound. *)
Definition _check_auth_arguments
    (args : Options) (api_version : pyval) (raise_exc : bool) : M bool :=
  let v3_arg_combinations :=
    [ os_project_id args;
      os_project_name args `and` os_project_domain_name args;
      os_project_name args `and` os_project_domain_id args ] in
  let v2_arg_combinations := [ os_tenant_id args; os_tenant_name args ] in
  let '(successful, msg) :=
    if keystone_v3 api_version then
      if negb (py_any v3_arg_combinations)
      then (false, Some MSG_V3_COMBINATION)
      else (true, None)
    else
      if negb (py_any v2_arg_combinations)
      then (false, Some MSG_V2_COMBINATION)
      else (true, None) in
  if negb successful && raise_exc then
    match msg with
    | Some m => raise m
    | None => raise "UnboundLocalError"
    end
  else ret successful.

(** [_build_kwargs_based_on_version], lines 169-186. *)
Definition _build_kwargs_based_on_version
    (args : Options) (api_version : pyval) : gmap string pyval :=
  let kwargs : gmap string pyval :=
    if keystone_v3 api_version then
      <["project_id" := os_project_id args]> (
      <["project_name" := os_project_name args]> (
      <["user_domain_id" := os_user_domain_id args]> (
      <["user_domain_name" := os_user_domain_name args]> (
      <["project_domain_id" := os_project_id args]> (
      <["project_domain_name" := os_project_name args]> ∅)))))
    else
      <["tenant_name" := os_tenant_name args]> (
      <["tenant_id" := os_tenant_id args]> ∅) in
  populated kwargs.

(** [if v: kwargs[k] = v] *)
Definition set_if (k : string) (v : pyval) (kwargs : gmap string pyval)
    : gmap string pyval :=
  if truthy v then <[k := v]> kwargs else kwargs.

(** The [--no-auth] branch, lines 202-211. *)
Definition no_auth_branch (args : Options) : M unit :=
  if negb (py_all [endpoint args; os_tenant_id args `or` os_project_id args])
  then raise MSG_NO_AUTH_MISSING
  else set_client (ClientNoAuth (endpoint args)
                                (os_tenant_id args `or` os_project_id args)
                                (negb (insecure args))).

(** Token-based authentication, lines 213-235.  The call of
    [identity.v3.Token] or [identity.v2.Token] is recorded with its keyword
    dictionary; an exception of the library on that dictionary is not
    modelled. *)
Definition token_branch (args : Options) (api_version : pyval) : M unit :=
  if py_not (os_auth_url args) then raise MSG_MISSING_AUTH_URL
  else
    _check_auth_arguments args api_version true;;
    let kwargs := _build_kwargs_based_on_version args api_version in
    let kwargs := <["token" := os_auth_token args]> (
                  <["auth_url" := os_auth_url args]> kwargs) in
    let auth := if keystone_v3 api_version then V3Token kwargs
                else V2Token kwargs in
    let ks_session := mkSession auth (negb (insecure args)) in
    set_client (ClientSession ks_session (endpoint args)).

(** Password-based authentication, lines 240-271. *)
Definition password_branch (args : Options) (api_version : pyval) : M unit :=
  let kwargs : gmap string pyval := ∅ in
  let kwargs := <["auth_url" := os_auth_url args]> kwargs in
  let kwargs := <["password" := os_password args]> kwargs in
  let kwargs := set_if "user_id" (os_user_id args) kwargs in
  let kwargs := set_if "username" (os_username args) kwargs in
  let auth :=
    if keystone_v3 api_version then
      let kwargs := set_if "project_id" (os_project_id args) kwargs in
      let kwargs := set_if "project_name" (os_project_name args) kwargs in
      let kwargs := set_if "user_domain_id" (os_user_domain_id args) kwargs in
      let kwargs := set_if "user_domain_name" (os_user_domain_name args) kwargs in
      let kwargs := set_if "project_domain_id" (os_project_domain_id args) kwargs in
      let kwargs := set_if "project_domain_name" (os_project_domain_name args) kwargs in
      V3Password kwargs
    else
      let kwargs := set_if "tenant_id" (os_tenant_id args) kwargs in
      let kwargs := set_if "tenant_name" (os_tenant_name args) kwargs in
      V2Password kwargs in
  let ks_session := mkSession auth (negb (insecure args)) in
  set_client (ClientSession ks_session (endpoint args)).

(** The final [else], lines 272-274. *)
Definition no_credentials_branch : M unit :=
  usage ← format_usage;
  stderr_write usage;;
  raise MSG_MISSING_CREDENTIALS.

(** [initialize_app], lines 188-274; [args] is [self.options]. *)
Definition initialize_app (args : Options) : M unit :=
  _assert_no_auth_and_auth_url_mutually_exclusive (no_auth args) (os_auth_url args);;
  let api_version := os_identity_api_version args in
  if no_auth args then no_auth_branch args
  else if truthy (os_auth_token args) then token_branch args api_version
  else if py_all [ os_auth_url args;
                   os_user_id args `or` os_username args;
                   os_password args;
                   os_tenant_name args `or` os_tenant_id args `or`
                     os_project_name args `or` os_project_id args ]
       then password_branch args api_version
  else no_credentials_branch.

(** ** Vocabulary of the specification *)

(** An option is non-empty when Python takes it for true, and unset
    otherwise. *)
Definition nonempty (v : pyval) : Prop := truthy v = true.
Definition unset (v : pyval) : Prop := truthy v = false.

(** The identity API version selects Keystone v3 when it is "3.0" or unset. *)
Definition v3_selected (api_version : pyval) : Prop :=
  unset api_version ∨ api_version = Some "3.0".

Inductive AuthMode : Type := NoAuth | Token | Password | Invalid.

#[global] Instance AuthMode_eq_dec : EqDecision AuthMode.
Proof. solve_decision. Defined.

(** Mode selection as the specification words it (4.1, step 2): the first
    rule that matches, in the order given there. *)
Definition select_mode_spec (o : Options) : AuthMode :=
  if no_auth o then NoAuth
  else if truthy (os_auth_token o) then Token
  else if truthy (os_auth_url o)
          && (truthy (os_user_id o) || truthy (os_username o))
          && truthy (os_password o)
          && (truthy (os_tenant_name o) || truthy (os_tenant_id o)
              || truthy (os_project_name o) || truthy (os_project_id o))
       then Password
  else Invalid.

(** The branch of [initialize_app] that belongs to a mode. *)
Definition run_mode (m : AuthMode) (o : Options) : M unit :=
  match m with
  | NoAuth => no_auth_branch o
  | Token => token_branch o (os_identity_api_version o)
  | Password => password_branch o (os_identity_api_version o)
  | Invalid => no_credentials_branch
  end.

(** The mode a finished run shows from outside: the shape of the client it
    left in [self.client], or the exception it raised. *)
Definition mode_of_auth (a : Auth) : AuthMode :=
  match a with
  | V3Token _ | V2Token _ => Token
  | V3Password _ | V2Password _ => Password
  end.

Definition mode_of_client (c : Client) : AuthMode :=
  match c with
  | ClientNoAuth _ _ _ => NoAuth
  | ClientSession s _ => mode_of_auth (session_auth s)
  end.

Definition mode_of_message (msg : string) : option AuthMode :=
  if decide (msg = MSG_NO_AUTH_MISSING) then Some NoAuth
  else if decide (msg = MSG_MISSING_AUTH_URL) then Some Token
  else if decide (msg = MSG_V3_COMBINATION) then Some Token
  else if decide (msg = MSG_V2_COMBINATION) then Some Token
  else if decide (msg = MSG_MISSING_CREDENTIALS) then Some Invalid
  else None.

Definition mode_of_run (r : App * outcome unit) : option AuthMode :=
  match r with
  | (app, Returned _) => mode_of_client <$> client app
  | (_, Raised msg) => mode_of_message msg
  end.

(** The identity combinations of the docstring of [_check_auth_arguments]. *)
Definition v3_combination (o : Options) : Prop :=
  nonempty (os_project_id o)
  ∨ (nonempty (os_project_name o) ∧ nonempty (os_project_domain_name o))
  ∨ (nonempty (os_project_name o) ∧ nonempty (os_project_domain_id o)).

Definition v2_combination (o : Options) : Prop :=
  nonempty (os_tenant_id o) ∨ nonempty (os_tenant_name o).

(** The v3 keyword set of token mode as the specification describes it:
    each of the six keys takes the option of the same name. *)
Definition token_kwargs_v3_spec (o : Options) : gmap string pyval :=
  <["token" := os_auth_token o]> (
  <["auth_url" := os_auth_url o]> (
  populated (
    <["project_id" := os_project_id o]> (
    <["project_name" := os_project_name o]> (
    <["user_domain_id" := os_user_domain_id o]> (
    <["user_domain_name" := os_user_domain_name o]> (
    <["project_domain_id" := os_project_domain_id o]> (
    <["project_domain_name" := os_project_domain_name o]> ∅)))))))).

(** The keyword dictionary handed to the credential constructor, when the
    run left a session client. *)
Definition auth_kwargs (a : Auth) : gmap string pyval :=
  match a with
  | V3Token kw | V2Token kw | V3Password kw | V2Password kw => kw
  end.

Definition kwargs_of_run (r : App * outcome unit) : option (gmap string pyval) :=
  match client r.1 with
  | Some (ClientSession s _) => Some (auth_kwargs (session_auth s))
  | _ => None
  end.

(** ** Sample inputs *)

Definition no_options : Options :=
  {| no_auth := false; os_identity_api_version := None; os_auth_url := None;
     os_username := None; os_user_id := None; os_password := None;
     os_user_domain_id := None; os_user_domain_name := None;
     os_tenant_name := None; os_tenant_id := None; os_project_id := None;
     os_project_name := None; os_project_domain_id := None;
     os_project_domain_name := None; os_auth_token := None;
     endpoint := None; insecure := false |}.

(** [--no-auth] together with [--os-auth-url]. *)
Definition conflict_options : Options :=
  {| no_auth := true; os_identity_api_version := None;
     os_auth_url := Some "http://keystone:5000/v3"; os_username := None;
     os_user_id := None; os_password := None; os_user_domain_id := None;
     os_user_domain_name := None; os_tenant_name := None;
     os_tenant_id := Some "t1"; os_project_id := None;
     os_project_name := None; os_project_domain_id := None;
     os_project_domain_name := None; os_auth_token := None;
     endpoint := Some "http://barbican:9311"; insecure := false |}.

(** A token with a project id and a project domain id, default identity version. *)
Definition token_v3_options : Options :=
  {| no_auth := false; os_identity_api_version := None;
     os_auth_url := Some "http://keystone:5000/v3"; os_username := None;
     os_user_id := None; os_password := None; os_user_domain_id := None;
     os_user_domain_name := None; os_tenant_name := None;
     os_tenant_id := None; os_project_id := Some "p1";
     os_project_name := None; os_project_domain_id := Some "dom1";
     os_project_domain_name := None; os_auth_token := Some "abc123";
     endpoint := Some "http://barbican:9311"; insecure := false |}.

(** A token with a tenant name, identity version 2.0. *)
Definition token_v2_options : Options :=
  {| no_auth := false; os_identity_api_version := Some "2.0";
     os_auth_url := Some "http://keystone:5000/v3"; os_username := None;
     os_user_id := None; os_password := None; os_user_domain_id := None;
     os_user_domain_name := None; os_tenant_name := Some "demo";
     os_tenant_id := None; os_project_id := None; os_project_name := None;
     os_project_domain_id := None; os_project_domain_name := None;
     os_auth_token := Some "abc123"; endpoint := Some "http://barbican:9311";
     insecure := false |}.

(** A token and an auth URL, but no project or tenant. *)
Definition token_url_only_options : Options :=
  {| no_auth := false; os_identity_api_version := None;
     os_auth_url := Some "http://keystone:5000/v3"; os_username := None;
     os_user_id := None; os_password := None; os_user_domain_id := None;
     os_user_domain_name := None; os_tenant_name := None;
     os_tenant_id := None; os_project_id := None; os_project_name := None;
     os_project_domain_id := None; os_project_domain_name := None;
     os_auth_token := Some "abc123"; endpoint := None; insecure := false |}.

(** A token and nothing else. *)
Definition token_only_options : Options :=
  {| no_auth := false; os_identity_api_version := None; os_auth_url := None;
     os_username := None; os_user_id := None; os_password := None;
     os_user_domain_id := None; os_user_domain_name := None;
     os_tenant_name := None; os_tenant_id := None; os_project_id := None;
     os_project_name := None; os_project_domain_id := None;
     os_project_domain_name := None; os_auth_token := Some "abc123";
     endpoint := None; insecure := false |}.

(** [--no-auth] with an endpoint, a tenant id and a token, but no auth URL. *)
Definition no_auth_token_options : Options :=
  {| no_auth := true; os_identity_api_version := None; os_auth_url := None;
     os_username := None; os_user_id := None; os_password := None;
     os_user_domain_id := None; os_user_domain_name := None;
     os_tenant_name := None; os_tenant_id := Some "t1";
     os_project_id := None; os_project_name := None;
     os_project_domain_id := None; os_project_domain_name := None;
     os_auth_token := Some "abc123"; endpoint := Some "http://barbican:9311";
     insecure := false |}.

(** [--no-auth] with an endpoint, a tenant id and a project id. *)
Definition no_auth_options : Options :=
  {| no_auth := true; os_identity_api_version := None; os_auth_url := None;
     os_username := None; os_user_id := None; os_password := None;
     os_user_domain_id := None; os_user_domain_name := None;
     os_tenant_name := None; os_tenant_id := Some "t1";
     os_project_id := Some "p1"; os_project_name := None;
     os_project_domain_id := None; os_project_domain_name := None;
     os_auth_token := None; endpoint := Some "http://barbican:9311";
     insecure := false |}.

(** [--no-auth] with an endpoint and a project id only. *)
Definition no_auth_project_options : Options :=
  {| no_auth := true; os_identity_api_version := None; os_auth_url := None;
     os_username := None; os_user_id := None; os_password := None;
     os_user_domain_id := None; os_user_domain_name := None;
     os_tenant_name := None; os_tenant_id := None;
     os_project_id := Some "p1"; os_project_name := None;
     os_project_domain_id := None; os_project_domain_name := None;
     os_auth_token := None; endpoint := Some "http://barbican:9311";
     insecure := false |}.

(** [--no-auth] and nothing else. *)
Definition no_auth_bare_options : Options :=
  {| no_auth := true; os_identity_api_version := None; os_auth_url := None;
     os_username := None; os_user_id := None; os_password := None;
     os_user_domain_id := None; os_user_domain_name := None;
     os_tenant_name := None; os_tenant_id := None; os_project_id := None;
     os_project_name := None; os_project_domain_id := None;
     os_project_domain_name := None; os_auth_token := None; endpoint := None;
     insecure := false |}.

(** The password scenario: auth URL, user name, password and project name. *)
Definition password_options : Options :=
  {| no_auth := false; os_identity_api_version := None;
     os_auth_url := Some "http://keystone:5000/v3";
     os_username := Some "admin"; os_user_id := None;
     os_password := Some "secret"; os_user_domain_id := None;
     os_user_domain_name := None; os_tenant_name := None;
     os_tenant_id := None; os_project_id := None;
     os_project_name := Some "demo"; os_project_domain_id := None;
     os_project_domain_name := None; os_auth_token := None; endpoint := None;
     insecure := false |}.

(** Password fields with identity version 2.0 and a project name only. *)
Definition password_v2_project_options : Options :=
  {| no_auth := false; os_identity_api_version := Some "2.0";
     os_auth_url := Some "http://keystone:5000/v3";
     os_username := Some "admin"; os_user_id := None;
     os_password := Some "secret"; os_user_domain_id := None;
     os_user_domain_name := None; os_tenant_name := None;
     os_tenant_id := None; os_project_id := None;
     os_project_name := Some "demo"; os_project_domain_id := None;
     os_project_domain_name := None; os_auth_token := None;
     endpoint := Some "http://barbican:9311"; insecure := false |}.

Definition sample_usage : string := "usage: barbican [--version] [-v] [-q]".

(** ** Observations on a finished run *)

(** The [verify] and [endpoint] arguments a client was built with. *)
Definition client_verify (c : Client) : bool :=
  match c with
  | ClientNoAuth _ _ v => v
  | ClientSession s _ => session_verify s
  end.

Definition client_endpoint (c : Client) : pyval :=
  match c with
  | ClientNoAuth e _ _ => e
  | ClientSession _ e => e
  end.

(** Whether a credential was built by a constructor of [identity.v3]. *)
Definition auth_is_v3 (a : Auth) : bool :=
  match a with
  | V3Token _ | V3Password _ => true
  | V2Token _ | V2Password _ => false
  end.

(** The keys of the two dict literals of [_build_kwargs_based_on_version]. *)
Definition v3_keys : gset string :=
  {[ "project_id"; "project_name"; "user_domain_id"; "user_domain_name";
     "project_domain_id"; "project_domain_name" ]}.

Definition v2_keys : gset string := {[ "tenant_name"; "tenant_id" ]}.

(** The exception messages of [initialize_app] and its helpers. *)
Definition raised_messages : list string :=
  [ MSG_CONFLICT; MSG_NO_AUTH_MISSING; MSG_MISSING_AUTH_URL;
    MSG_V3_COMBINATION; MSG_V2_COMBINATION; MSG_MISSING_CREDENTIALS ].

(** An option given as the empty string, read as an option not given.  The
    endpoint is left alone: it is handed to the client as it is. *)
Definition blank_to_none (v : pyval) : pyval := if truthy v then v else None.

Definition blank_options_to_none (o : Options) : Options :=
  {| no_auth := no_auth o;
     os_identity_api_version := blank_to_none (os_identity_api_version o);
     os_auth_url := blank_to_none (os_auth_url o);
     os_username := blank_to_none (os_username o);
     os_user_id := blank_to_none (os_user_id o);
     os_password := blank_to_none (os_password o);
     os_user_domain_id := blank_to_none (os_user_domain_id o);
     os_user_domain_name := blank_to_none (os_user_domain_name o);
     os_tenant_name := blank_to_none (os_tenant_name o);
     os_tenant_id := blank_to_none (os_tenant_id o);
     os_project_id := blank_to_none (os_project_id o);
     os_project_name := blank_to_none (os_project_name o);
     os_project_domain_id := blank_to_none (os_project_domain_id o);
     os_project_domain_name := blank_to_none (os_project_domain_name o);
     os_auth_token := blank_to_none (os_auth_token o);
     endpoint := endpoint o;
     insecure := insecure o |}.

(** The options with another value of [--os-identity-api-version]. *)
Definition with_identity_api_version (v : pyval) (o : Options) : Options :=
  {| no_auth := no_auth o;
     os_identity_api_version := v;
     os_auth_url := os_auth_url o;
     os_username := os_username o;
     os_user_id := os_user_id o;
     os_password := os_password o;
     os_user_domain_id := os_user_domain_id o;
     os_user_domain_name := os_user_domain_name o;
     os_tenant_name := os_tenant_name o;
     os_tenant_id := os_tenant_id o;
     os_project_id := os_project_id o;
     os_project_name := os_project_name o;
     os_project_domain_id := os_project_domain_id o;
     os_project_domain_name := os_project_domain_name o;
     os_auth_token := os_auth_token o;
     endpoint := endpoint o;
     insecure := insecure o |}.

(** ** The options registered by [build_option_parser] *)

(** One [parser.add_argument] call: its option strings, its action, its
    metavar, the environment variable its default is read from through
    [client.env], and its help text. *)
Inductive Action : Type := Store | StoreTrue.

Record Argument : Type := mkArgument {
  arg_option_strings : list string;
  arg_action : Action;
  arg_metavar : option string;
  arg_default_env : option string;
  arg_help : string
}.

(** The calls of lines 52-121, in order.  The arguments of the parent parser
    and of [session.Session.register_cli_options] are not in this file. *)
Definition build_option_parser_arguments : list Argument :=
  [ mkArgument ["--no-auth"; "-N"] StoreTrue None None
      "Do not use authentication.";
    mkArgument ["--os-identity-api-version"] Store
      (Some "<identity-api-version>") (Some "OS_IDENTITY_API_VERSION")
      "Specify Identity API version to use. Defaults to env[OS_IDENTITY_API_VERSION] or 3.0.";
    mkArgument ["--os-auth-url"; "-A"] Store
      (Some "<auth-url>") (Some "OS_AUTH_URL")
      "Defaults to env[OS_AUTH_URL].";
    mkArgument ["--os-username"; "-U"] Store
      (Some "<auth-user-name>") (Some "OS_USERNAME")
      "Defaults to env[OS_USERNAME].";
    mkArgument ["--os-user-id"] Store
      (Some "<auth-user-id>") (Some "OS_USER_ID")
      "Defaults to env[OS_USER_ID].";
    mkArgument ["--os-password"; "-P"] Store
      (Some "<auth-password>") (Some "OS_PASSWORD")
      "Defaults to env[OS_PASSWORD].";
    mkArgument ["--os-user-domain-id"] Store
      (Some "<auth-user-domain-id>") (Some "OS_USER_DOMAIN_ID")
      "Defaults to env[OS_USER_DOMAIN_ID].";
    mkArgument ["--os-user-domain-name"] Store
      (Some "<auth-user-domain-name>") (Some "OS_USER_DOMAIN_NAME")
      "Defaults to env[OS_USER_DOMAIN_NAME].";
    mkArgument ["--os-tenant-name"; "-T"] Store
      (Some "<auth-tenant-name>") (Some "OS_TENANT_NAME")
      "Defaults to env[OS_TENANT_NAME].";
    mkArgument ["--os-tenant-id"; "-I"] Store
      (Some "<tenant-id>") (Some "OS_TENANT_ID")
      "Defaults to env[OS_TENANT_ID].";
    mkArgument ["--os-project-id"] Store
      (Some "<auth-project-id>") (Some "OS_PROJECT__ID")
      "Another way to specify tenant ID. This option is mutually exclusive with  --os-tenant-id. Defaults to env[OS_PROJECT_ID].";
    mkArgument ["--os-project-name"] Store
      (Some "<auth-project-name>") (Some "OS_PROJECT_NAME")
      "Another way to specify tenant name. This option is mutually exclusive with  --os-tenant-name. Defaults to env[OS_PROJECT_NAME].";
    mkArgument ["--os-project-domain-id"] Store
      (Some "<auth-project-domain-id>") (Some "OS_PROJECT_DOMAIN_ID")
      "Defaults to env[OS_PROJECT_DOMAIN_ID].";
    mkArgument ["--os-project-domain-name"] Store
      (Some "<auth-project-domain-name>") (Some "OS_PROJECT_DOMAIN_NAME")
      "Defaults to env[OS_PROJECT_DOMAIN_NAME].";
    mkArgument ["--os-auth-token"] Store
      (Some "<auth-token>") (Some "OS_AUTH_TOKEN")
      "Defaults to env[OS_AUTH_TOKEN].";
    mkArgument ["--endpoint"; "-E"] Store
      (Some "<barbican-url>") (Some "BARBICAN_ENDPOINT")
      "Defaults to env[BARBICAN_ENDPOINT]." ].

(** The attribute name argparse gives an optional argument: its first long
    option string without the leading dashes, inner dashes turned into
    underscores. *)
Fixpoint dashes_to_underscores (s : string) : string :=
  match s with
  | EmptyString => EmptyString
  | String c s' =>
      String (if Ascii.eqb c "-" then "_"%char else c) (dashes_to_underscores s')
  end.

Definition long_option_name (s : string) : option string :=
  match s with
  | String "-" (String "-" name) => Some name
  | _ => None
  end.

Definition arg_dest (a : Argument) : option string :=
  dashes_to_underscores <$> head (omap long_option_name (arg_option_strings a)).

(** [needle in s] *)
Fixpoint contains (needle s : string) : bool :=
  String.prefix needle s
  || match s with
     | EmptyString => false
     | String _ s' => contains needle s'
     end.

(** The default of the attribute [dest], with [env] standing for
    [client.env] under the environment of the process (that function is in
    [barbicanclient/client.py], not in this file). *)
Definition registered_default (env : string → pyval) (dest : string) : pyval :=
  match List.find (λ a, bool_decide (arg_dest a = Some dest))
                  build_option_parser_arguments with
  | Some a =>
      match arg_default_env a with
      | Some name => env name
      | None => None
      end
  | None => None
  end.

(** [self.options] after an empty command line: every attribute holds the
    default it was registered with.  [session_insecure] is the default of
    the flag that [session.Session.register_cli_options] registers. *)
Definition default_options (env : string → pyval) (session_insecure : bool)
    : Options :=
  {| no_auth := false;
     os_identity_api_version := registered_default env "os_identity_api_version";
     os_auth_url := registered_default env "os_auth_url";
     os_username := registered_default env "os_username";
     os_user_id := registered_default env "os_user_id";
     os_password := registered_default env "os_password";
     os_user_domain_id := registered_default env "os_user_domain_id";
     os_user_domain_name := registered_default env "os_user_domain_name";
     os_tenant_name := registered_default env "os_tenant_name";
     os_tenant_id := registered_default env "os_tenant_id";
     os_project_id := registered_default env "os_project_id";
     os_project_name := registered_default env "os_project_name";
     os_project_domain_id := registered_default env "os_project_domain_id";
     os_project_domain_name := registered_default env "os_project_domain_name";
     os_auth_token := registered_default env "os_auth_token";
     endpoint := registered_default env "endpoint";
     insecure := session_insecure |}.

(** A password environment that names its project through the variable the
    help text documents. *)
Definition documented_env (name : string) : pyval :=
  if decide (name = "OS_AUTH_URL") then Some "http://keystone:5000/v3"
  else if decide (name = "OS_USERNAME") then Some "admin"
  else if decide (name = "OS_PASSWORD") then Some "secret"
  else if decide (name = "OS_PROJECT_ID") then Some "p1"
  else None.

(** Further sample inputs. *)

(** Password fields with the default identity version and a tenant name only. *)
Definition password_v3_tenant_options : Options :=
  {| no_auth := false; os_identity_api_version := None;
     os_auth_url := Some "http://keystone:5000/v3";
     os_username := Some "admin"; os_user_id := None;
     os_password := Some "secret"; os_user_domain_id := None;
     os_user_domain_name := None; os_tenant_name := Some "demo";
     os_tenant_id := None; os_project_id := None; os_project_name := None;
     os_project_domain_id := None; os_project_domain_name := None;
     os_auth_token := None; endpoint := Some "http://barbican:9311";
     insecure := false |}.

(** Password fields, default identity version, project name with both
    project domain options and both user domain options. *)
Definition password_v3_domain_options : Options :=
  {| no_auth := false; os_identity_api_version := Some "3.0";
     os_auth_url := Some "http://keystone:5000/v3";
     os_username := Some "admin"; os_user_id := None;
     os_password := Some "secret"; os_user_domain_id := Some "ud1";
     os_user_domain_name := Some "Default"; os_tenant_name := None;
     os_tenant_id := None; os_project_id := Some "p1";
     os_project_name := Some "demo"; os_project_domain_id := Some "dom1";
     os_project_domain_name := Some "Default"; os_auth_token := None;
     endpoint := Some "http://barbican:9311"; insecure := true |}.

(** ** Proof steps shared by the case analyses *)

Ltac case_if :=
  match goal with
  | |- context [if ?b then _ else _] => destruct b eqn:?
  end.

Ltac message_cases :=
  repeat match goal with
         | |- context [decide (?a = ?b)] =>
             first [ rewrite (decide_True (P := a = b)) by reflexivity
                   | rewrite (decide_False (P := a = b)) by discriminate ]
         end.

Ltac in_key_set :=
  unfold v3_keys, v2_keys;
  rewrite ?elem_of_union, ?elem_of_singleton; intuition reflexivity.

Ltac in_raised_messages :=
  unfold raised_messages;
  solve [ repeat first [ apply list_elem_of_here | apply list_elem_of_further ] ].

(** ** Basic facts *)

Section Truth.

Implicit Types a b v : pyval.

Lemma nonempty_iff v : nonempty v ↔ ∃ s, v = Some s ∧ s ≠ "".
Proof.
  unfold nonempty; split.
  - destruct v as [[|c s]|]; simpl; try discriminate.
    intros _; exists (String c s); split; [reflexivity | discriminate].
  - intros (s & -> & Hs). destruct s; [contradiction | reflexivity].
Qed.

Lemma unset_iff v : unset v ↔ v = None ∨ v = Some "".
Proof.
  unfold unset; split.
  - destruct v as [[|c s]|]; simpl; auto; discriminate.
  - intros [-> | ->]; reflexivity.
Qed.

Lemma unset_not_nonempty v : unset v ↔ ¬ nonempty v.
Proof. unfold unset, nonempty. destruct (truthy v); naive_solver. Qed.

Lemma truthy_or a b : truthy (a `or` b) = truthy a || truthy b.
Proof. unfold py_or. destruct (truthy a) eqn:E; simpl; [exact E | reflexivity]. Qed.

Lemma truthy_and a b : truthy (a `and` b) = truthy a && truthy b.
Proof. unfold py_and. destruct (truthy a) eqn:E; simpl; [reflexivity | exact E]. Qed.

Lemma py_or_l a b : nonempty a → a `or` b = a.
Proof. unfold nonempty, py_or. intros ->. reflexivity. Qed.

Lemma py_or_r a b : unset a → a `or` b = b.
Proof. unfold unset, py_or. intros ->. reflexivity. Qed.

Lemma keystone_v3_true v : keystone_v3 v = true ↔ v3_selected v.
Proof.
  unfold keystone_v3, v3_selected, unset, py_not.
  rewrite orb_true_iff, negb_true_iff, bool_decide_eq_true. reflexivity.
Qed.

Lemma keystone_v3_false v : keystone_v3 v = false ↔ ¬ v3_selected v.
Proof.
  rewrite <- keystone_v3_true. destruct (keystone_v3 v); naive_solver.
Qed.

Lemma set_if_nonempty k v (kw : gmap string pyval) :
  nonempty v → set_if k v kw = <[k := v]> kw.
Proof. unfold nonempty, set_if. intros ->. reflexivity. Qed.

Lemma set_if_unset k v (kw : gmap string pyval) :
  unset v → set_if k v kw = kw.
Proof. unfold unset, set_if. intros ->. reflexivity. Qed.

End Truth.

(** Unfolding one step of the monad. *)
Lemma run_bind {A B} (m : M A) (k : A → M B) app :
  (m ≫= k) app =
  match m app with
  | (app', Returned a) => k a app'
  | (app', Raised msg) => (app', Raised msg)
  end.
Proof. reflexivity. Qed.

Lemma assert_exclusive_passes (na : bool) (url : pyval) app :
  (na = false ∨ unset url) →
  _assert_no_auth_and_auth_url_mutually_exclusive na url app = (app, Returned tt).
Proof.
  unfold _assert_no_auth_and_auth_url_mutually_exclusive, unset.
  intros [-> | ->]; [reflexivity |]. rewrite andb_false_r. reflexivity.
Qed.

(** After the mutual-exclusion check has passed, [initialize_app] is its
    chain of guards. *)
Lemma initialize_app_guards o app :
  (no_auth o = false ∨ unset (os_auth_url o)) →
  initialize_app o app =
  (if no_auth o then no_auth_branch o
   else if truthy (os_auth_token o)
        then token_branch o (os_identity_api_version o)
   else if py_all [ os_auth_url o;
                    os_user_id o `or` os_username o;
                    os_password o;
                    os_tenant_name o `or` os_tenant_id o `or`
                      os_project_name o `or` os_project_id o ]
        then password_branch o (os_identity_api_version o)
   else no_credentials_branch) app.
Proof.
  intros H. unfold initialize_app. rewrite run_bind.
  rewrite (assert_exclusive_passes _ _ _ H). reflexivity.
Qed.

Lemma password_guard o :
  py_all [ os_auth_url o;
           os_user_id o `or` os_username o;
           os_password o;
           os_tenant_name o `or` os_tenant_id o `or`
             os_project_name o `or` os_project_id o ]
  = truthy (os_auth_url o)
    && (truthy (os_user_id o) || truthy (os_username o))
    && truthy (os_password o)
    && (truthy (os_tenant_name o) || truthy (os_tenant_id o)
        || truthy (os_project_name o) || truthy (os_project_id o)).
Proof.
  unfold py_all; simpl. rewrite !truthy_or, andb_true_r, !andb_assoc. reflexivity.
Qed.

(** ** What each branch does *)

Lemma no_auth_branch_ok o app :
  nonempty (endpoint o) →
  nonempty (os_tenant_id o) ∨ nonempty (os_project_id o) →
  no_auth_branch o app =
  set_client (ClientNoAuth (endpoint o) (os_tenant_id o `or` os_project_id o)
                           (negb (insecure o))) app.
Proof.
  unfold nonempty, no_auth_branch, py_all. intros He Hp. simpl.
  rewrite truthy_or, He.
  destruct Hp as [-> | ->]; rewrite ?orb_true_r; reflexivity.
Qed.

Lemma no_auth_branch_missing o app :
  unset (endpoint o) ∨ (unset (os_tenant_id o) ∧ unset (os_project_id o)) →
  no_auth_branch o app = (app, Raised MSG_NO_AUTH_MISSING).
Proof.
  unfold unset, no_auth_branch, py_all. simpl. rewrite truthy_or.
  intros [-> | [-> ->]]; [| rewrite andb_false_r]; reflexivity.
Qed.

Lemma check_auth_arguments_run o v app :
  _check_auth_arguments o v true app =
  if keystone_v3 v then
    if truthy (os_project_id o)
       || truthy (os_project_name o) && truthy (os_project_domain_name o)
       || truthy (os_project_name o) && truthy (os_project_domain_id o)
    then (app, Returned true) else (app, Raised MSG_V3_COMBINATION)
  else
    if truthy (os_tenant_id o) || truthy (os_tenant_name o)
    then (app, Returned true) else (app, Raised MSG_V2_COMBINATION).
Proof.
  unfold _check_auth_arguments, py_any; simpl. rewrite !truthy_and, !orb_false_r.
  rewrite orb_assoc.
  destruct (keystone_v3 v);
    match goal with |- context [negb ?b] => destruct b end; reflexivity.
Qed.

Lemma no_credentials_branch_run app :
  no_credentials_branch app =
  ({| stderr := stderr app ++ [parser_usage app]; client := client app;
      parser_usage := parser_usage app |}, Raised MSG_MISSING_CREDENTIALS).
Proof. reflexivity. Qed.

Lemma mode_of_no_auth_branch o app : mode_of_run (no_auth_branch o app) = Some NoAuth.
Proof. unfold no_auth_branch. destruct (negb _); reflexivity. Qed.

Lemma mode_of_token_branch o v app : mode_of_run (token_branch o v app) = Some Token.
Proof.
  unfold token_branch. destruct (py_not _); [reflexivity |].
  rewrite run_bind, check_auth_arguments_run.
  destruct (keystone_v3 v);
    match goal with |- context [if ?b then (app, Returned true) else _] =>
      destruct b end; reflexivity.
Qed.

Lemma mode_of_password_branch o v app :
  mode_of_run (password_branch o v app) = Some Password.
Proof. unfold password_branch. destruct (keystone_v3 v); reflexivity. Qed.

Lemma mode_of_no_credentials_branch app :
  mode_of_run (no_credentials_branch app) = Some Invalid.
Proof. reflexivity. Qed.

(** ** The claims *)

(** C2. Once the mutual-exclusion check has passed, the run of
    [initialize_app] is the branch of the mode that the first matching rule
    selects (no_auth, then a non-empty auth_token, then the complete
    password fields, else Invalid).  A finished run never shows another
    mode than the selected one, and outside token mode it always shows the
    selected one.  In particular, with no_auth set the run is the no-auth
    branch whatever the token and password options hold, and with a
    non-empty auth_token (and no_auth clear) it is the token branch whatever
    the password options hold. *)
Theorem C2_mode_selection_first_match o app :
  (_assert_no_auth_and_auth_url_mutually_exclusive (no_auth o) (os_auth_url o) app).2
    = Returned tt →
  initialize_app o app = run_mode (select_mode_spec o) o app
  ∧ (∀ m, mode_of_run (initialize_app o app) = Some m → m = select_mode_spec o)
  ∧ (select_mode_spec o ≠ Token →
     mode_of_run (initialize_app o app) = Some (select_mode_spec o))
  ∧ (no_auth o = true → initialize_app o app = no_auth_branch o app)
  ∧ (no_auth o = false → nonempty (os_auth_token o) →
     initialize_app o app = token_branch o (os_identity_api_version o) app).
Proof.
  intros Hpass.
  assert (Hex : no_auth o = false ∨ unset (os_auth_url o)).
  { revert Hpass. unfold _assert_no_auth_and_auth_url_mutually_exclusive, unset.
    destruct (no_auth o); [| auto].
    destruct (truthy (os_auth_url o)); [discriminate | auto]. }
  rewrite (initialize_app_guards _ _ Hex), password_guard.
  unfold select_mode_spec, nonempty.
  destruct (no_auth o).
  { rewrite mode_of_no_auth_branch.
    split; [reflexivity |]. split; [intros m [= <-]; reflexivity |].
    split; [reflexivity |]. split; [reflexivity | discriminate]. }
  destruct (truthy (os_auth_token o)).
  { rewrite mode_of_token_branch.
    split; [reflexivity |]. split; [intros m [= <-]; reflexivity |].
    split; [intros H; contradiction H; reflexivity |].
    split; [discriminate | reflexivity]. }
  match goal with |- context [if ?b then password_branch _ _ else _] =>
    destruct b end.
  - rewrite mode_of_password_branch.
    split; [reflexivity |]. split; [intros m [= <-]; reflexivity |].
    split; [reflexivity |]. split; [discriminate | discriminate].
  - rewrite mode_of_no_credentials_branch.
    split; [reflexivity |]. split; [intros m [= <-]; reflexivity |].
    split; [reflexivity |]. split; [discriminate | discriminate].
Qed.

Lemma C2_mode_selection_first_match_witness :
  initialize_app no_auth_token_options (new_app sample_usage)
    = run_mode NoAuth no_auth_token_options (new_app sample_usage)
  ∧ initialize_app token_v3_options (new_app sample_usage)
    = run_mode Token token_v3_options (new_app sample_usage)
  ∧ initialize_app password_options (new_app sample_usage)
    = run_mode Password password_options (new_app sample_usage)
  ∧ initialize_app no_options (new_app sample_usage)
    = run_mode Invalid no_options (new_app sample_usage).
Proof.
  split; [| split; [| split]].
  - destruct (C2_mode_selection_first_match no_auth_token_options (new_app sample_usage))
      as [H _]; [reflexivity | exact H].
  - destruct (C2_mode_selection_first_match token_v3_options (new_app sample_usage))
      as [H _]; [reflexivity | exact H].
  - destruct (C2_mode_selection_first_match password_options (new_app sample_usage))
      as [H _]; [reflexivity | exact H].
  - destruct (C2_mode_selection_first_match no_options (new_app sample_usage))
      as [H _]; [reflexivity | exact H].
Defined.

(** C3. With no_auth set and a non-empty auth_url, [initialize_app] raises
    the conflicting-options exception whatever the other options hold; the
    application object is left as it was, so no client is created and
    nothing is written. *)
Theorem C3_conflicting_options_fail o app :
  no_auth o = true →
  nonempty (os_auth_url o) →
  initialize_app o app = (app, Raised MSG_CONFLICT)
  ∧ client (initialize_app o app).1 = client app.
Proof.
  unfold nonempty. intros Hna Hurl.
  assert (Hrun : initialize_app o app = (app, Raised MSG_CONFLICT)).
  { unfold initialize_app, _assert_no_auth_and_auth_url_mutually_exclusive.
    rewrite run_bind, Hna, Hurl. reflexivity. }
  rewrite Hrun. split; reflexivity.
Qed.

Lemma C3_conflicting_options_fail_witness :
  initialize_app conflict_options (new_app sample_usage)
    = (new_app sample_usage, Raised MSG_CONFLICT)
  ∧ client (initialize_app conflict_options (new_app sample_usage)).1 = None.
Proof.
  apply (C3_conflicting_options_fail conflict_options (new_app sample_usage));
    reflexivity.
Defined.

(** C6. With no_auth set and auth_url unset: if endpoint is non-empty and
    tenant_id or project_id is non-empty, the run returns in NoAuth mode
    and sets the client built from the endpoint, the project id
    [os_tenant_id or os_project_id] (which is non-empty) and verify = not
    insecure; if endpoint is unset, or tenant_id and project_id are both
    unset, the run raises the missing-endpoint-or-project-id exception and
    leaves the application object as it was. *)
Theorem C6_no_auth_mode o app :
  no_auth o = true →
  unset (os_auth_url o) →
  (nonempty (endpoint o) →
   nonempty (os_tenant_id o) ∨ nonempty (os_project_id o) →
   initialize_app o app =
     set_client (ClientNoAuth (endpoint o) (os_tenant_id o `or` os_project_id o)
                              (negb (insecure o))) app
   ∧ nonempty (os_tenant_id o `or` os_project_id o)
   ∧ (initialize_app o app).2 = Returned tt
   ∧ mode_of_run (initialize_app o app) = Some NoAuth)
  ∧ (unset (endpoint o) ∨ (unset (os_tenant_id o) ∧ unset (os_project_id o)) →
     initialize_app o app = (app, Raised MSG_NO_AUTH_MISSING)).
Proof.
  intros Hna Hurl.
  rewrite (initialize_app_guards o app (or_intror Hurl)), Hna.
  split.
  - intros He Hp. rewrite (no_auth_branch_ok o app He Hp).
    split; [reflexivity |]. split; [| split; reflexivity].
    unfold nonempty in *. rewrite truthy_or.
    destruct Hp as [-> | ->]; rewrite ?orb_true_r; reflexivity.
  - apply no_auth_branch_missing.
Qed.

Lemma C6_no_auth_mode_witness :
  initialize_app no_auth_project_options (new_app sample_usage) =
    ({| stderr := [];
        client := Some (ClientNoAuth (Some "http://barbican:9311") (Some "p1") true);
        parser_usage := sample_usage |}, Returned tt)
  ∧ initialize_app no_auth_bare_options (new_app sample_usage) =
    (new_app sample_usage, Raised MSG_NO_AUTH_MISSING).
Proof.
  split.
  - destruct (C6_no_auth_mode no_auth_project_options (new_app sample_usage))
      as [[H _] _]; [reflexivity | reflexivity | reflexivity | | exact H].
    right; reflexivity.
  - destruct (C6_no_auth_mode no_auth_bare_options (new_app sample_usage))
      as [_ H]; [reflexivity | reflexivity |]. apply H. left; reflexivity.
Defined.

(** C7, as stated: a non-empty auth_token with auth_url unset always ends
    in the missing-auth-url exception.  It does not: with no_auth set the
    token is never looked at, and the run below returns with a client. *)
Lemma C7_missing_auth_url_counterexample :
  ¬ (∀ o app, nonempty (os_auth_token o) → unset (os_auth_url o) →
       (initialize_app o app).2 = Raised MSG_MISSING_AUTH_URL).
Proof.
  intros H.
  specialize (H no_auth_token_options (new_app sample_usage) eq_refl eq_refl).
  vm_compute in H. discriminate H.
Qed.

(** C7, amended. With no_auth clear, a non-empty auth_token and auth_url
    unset, [initialize_app] raises the missing-auth-url exception and leaves
    the application object as it was. *)
Theorem C7_missing_auth_url o app :
  no_auth o = false →
  nonempty (os_auth_token o) →
  unset (os_auth_url o) →
  initialize_app o app = (app, Raised MSG_MISSING_AUTH_URL).
Proof.
  unfold nonempty, unset. intros Hna Htok Hurl.
  rewrite (initialize_app_guards o app (or_introl Hna)), Hna, Htok.
  unfold token_branch, py_not. rewrite Hurl. reflexivity.
Qed.

Lemma C7_missing_auth_url_witness :
  initialize_app token_only_options (new_app sample_usage)
    = (new_app sample_usage, Raised MSG_MISSING_AUTH_URL).
Proof.
  apply (C7_missing_auth_url token_only_options (new_app sample_usage));
    reflexivity.
Defined.

(** C8. When no mode's required fields are satisfied (the selected mode is
    Invalid), [initialize_app] is the sequence: write the usage text of the
    parser to stderr, then raise the missing-credentials exception.  The
    usage text is the last chunk on stderr when the exception is raised, and
    [self.client] is left as it was (no client is created). *)
Theorem C8_invalid_mode_usage_then_error o app :
  select_mode_spec o = Invalid →
  initialize_app o app
    = (stderr_write (parser_usage app);; raise MSG_MISSING_CREDENTIALS) app
  ∧ initialize_app o app
    = ({| stderr := stderr app ++ [parser_usage app]; client := client app;
          parser_usage := parser_usage app |}, Raised MSG_MISSING_CREDENTIALS)
  ∧ client (initialize_app o app).1 = client app.
Proof.
  intros Hmode.
  assert (Hna : no_auth o = false).
  { unfold select_mode_spec in Hmode. destruct (no_auth o); [discriminate | reflexivity]. }
  assert (Hrun : initialize_app o app = no_credentials_branch app).
  { rewrite (initialize_app_guards o app (or_introl Hna)), password_guard.
    unfold select_mode_spec in Hmode. rewrite Hna in *.
    destruct (truthy (os_auth_token o)); [discriminate |].
    match goal with |- context [if ?b then password_branch _ _ else _] =>
      destruct b end; [discriminate | reflexivity]. }
  rewrite Hrun. repeat split.
Qed.

Lemma C8_invalid_mode_usage_then_error_witness :
  initialize_app no_options (new_app sample_usage)
    = ({| stderr := [sample_usage]; client := None;
          parser_usage := sample_usage |}, Raised MSG_MISSING_CREDENTIALS).
Proof.
  destruct (C8_invalid_mode_usage_then_error no_options (new_app sample_usage))
    as (_ & H & _); [reflexivity | exact H].
Defined.

(** C9. In NoAuth mode with a non-empty endpoint, the project id of the
    client is tenant_id whenever tenant_id is non-empty (also when
    project_id is non-empty as well); it is project_id only when tenant_id
    is unset. *)
Theorem C9_no_auth_tenant_precedence o app :
  no_auth o = true →
  unset (os_auth_url o) →
  nonempty (endpoint o) →
  (nonempty (os_tenant_id o) →
   initialize_app o app =
     set_client (ClientNoAuth (endpoint o) (os_tenant_id o) (negb (insecure o))) app)
  ∧ (unset (os_tenant_id o) → nonempty (os_project_id o) →
     initialize_app o app =
       set_client (ClientNoAuth (endpoint o) (os_project_id o) (negb (insecure o))) app).
Proof.
  intros Hna Hurl He.
  rewrite (initialize_app_guards o app (or_intror Hurl)), Hna.
  split.
  - intros Ht. rewrite (no_auth_branch_ok o app He (or_introl Ht)).
    rewrite (py_or_l _ _ Ht). reflexivity.
  - intros Ht Hp. rewrite (no_auth_branch_ok o app He (or_intror Hp)).
    rewrite (py_or_r _ _ Ht). reflexivity.
Qed.

Lemma C9_no_auth_tenant_precedence_witness :
  client (initialize_app no_auth_options (new_app sample_usage)).1
    = Some (ClientNoAuth (Some "http://barbican:9311") (Some "t1") true)
  ∧ client (initialize_app no_auth_project_options (new_app sample_usage)).1
    = Some (ClientNoAuth (Some "http://barbican:9311") (Some "p1") true).
Proof.
  split.
  - destruct (C9_no_auth_tenant_precedence no_auth_options (new_app sample_usage))
      as [H _]; [reflexivity | reflexivity | reflexivity |].
    rewrite H; reflexivity.
  - destruct (C9_no_auth_tenant_precedence no_auth_project_options (new_app sample_usage))
      as [_ H]; [reflexivity | reflexivity | reflexivity |].
    rewrite H; reflexivity.
Defined.

Lemma v3_combination_true o :
  truthy (os_project_id o)
  || truthy (os_project_name o) && truthy (os_project_domain_name o)
  || truthy (os_project_name o) && truthy (os_project_domain_id o) = true
  ↔ v3_combination o.
Proof.
  unfold v3_combination, nonempty.
  rewrite !orb_true_iff, !andb_true_iff. tauto.
Qed.

Lemma v2_combination_true o :
  truthy (os_tenant_id o) || truthy (os_tenant_name o) = true ↔ v2_combination o.
Proof. unfold v2_combination, nonempty. rewrite orb_true_iff. reflexivity. Qed.

Lemma token_branch_run o v app :
  nonempty (os_auth_url o) →
  token_branch o v app =
  match _check_auth_arguments o v true app with
  | (app', Returned _) =>
      set_client
        (ClientSession
           (mkSession
              ((if keystone_v3 v then V3Token else V2Token)
                 (<["token" := os_auth_token o]> (
                  <["auth_url" := os_auth_url o]> (
                  _build_kwargs_based_on_version o v))))
              (negb (insecure o)))
           (endpoint o)) app'
  | (app', Raised msg) => (app', Raised msg)
  end.
Proof.
  unfold nonempty, token_branch, py_not. intros ->. simpl. rewrite run_bind.
  destruct (_check_auth_arguments o v true app) as [app' [b | msg]];
    [| reflexivity].
  destruct (keystone_v3 v); reflexivity.
Qed.

(** C4. In token mode (no_auth clear, auth_token and auth_url non-empty)
    the identity-combination check [_check_auth_arguments] raises the v3
    diagnostic exactly when the version is "3.0" or unset and none of
    project_id, project_name with project_domain_name, project_name with
    project_domain_id is non-empty; it raises the v2 diagnostic exactly when
    the version is another one and neither tenant_id nor tenant_name is
    non-empty; it passes exactly when the combination required for the
    version holds.  A diagnostic of the check is the outcome of
    [initialize_app], and when the check passes [initialize_app] raises
    neither diagnostic. *)
Theorem C4_identity_combination_check o app :
  no_auth o = false →
  nonempty (os_auth_token o) →
  nonempty (os_auth_url o) →
  let v := os_identity_api_version o in
  let check := _check_auth_arguments o v true app in
  (v3_selected v →
     (check = (app, Raised MSG_V3_COMBINATION) ↔ ¬ v3_combination o)
     ∧ (check = (app, Returned true) ↔ v3_combination o))
  ∧ (¬ v3_selected v →
     (check = (app, Raised MSG_V2_COMBINATION) ↔ ¬ v2_combination o)
     ∧ (check = (app, Returned true) ↔ v2_combination o))
  ∧ (∀ msg, check = (app, Raised msg) → initialize_app o app = (app, Raised msg))
  ∧ (check = (app, Returned true) →
     (initialize_app o app).2 ≠ Raised MSG_V3_COMBINATION
     ∧ (initialize_app o app).2 ≠ Raised MSG_V2_COMBINATION).
Proof.
  intros Hna Htok Hurl v check.
  assert (Hrun : initialize_app o app = token_branch o v app).
  { rewrite (initialize_app_guards o app (or_introl Hna)), Hna.
    unfold nonempty in Htok. rewrite Htok. reflexivity. }
  rewrite Hrun, (token_branch_run o v app Hurl).
  fold check. subst check. rewrite check_auth_arguments_run.
  split; [| split; [| split]].
  - intros Hv. apply keystone_v3_true in Hv. rewrite Hv.
    rewrite <- v3_combination_true.
    match goal with |- context [if ?b then _ else _] => destruct b end;
      split; split; congruence.
  - intros Hv. apply keystone_v3_false in Hv. rewrite Hv.
    rewrite <- v2_combination_true.
    match goal with |- context [if ?b then _ else _] => destruct b end;
      split; split; congruence.
  - intros msg ->. reflexivity.
  - intros ->. split; discriminate.
Qed.

Lemma C4_identity_combination_check_witness :
  _check_auth_arguments token_v3_options None true (new_app sample_usage)
    = (new_app sample_usage, Returned true)
  ∧ _check_auth_arguments token_v2_options (Some "2.0") true (new_app sample_usage)
    = (new_app sample_usage, Returned true)
  ∧ initialize_app token_url_only_options (new_app sample_usage)
    = (new_app sample_usage, Raised MSG_V3_COMBINATION).
Proof.
  split; [| split].
  - destruct (C4_identity_combination_check token_v3_options (new_app sample_usage))
      as (H & _); [reflexivity | reflexivity | reflexivity |].
    destruct H as [_ H]; [left; reflexivity |].
    apply H. left. reflexivity.
  - destruct (C4_identity_combination_check token_v2_options (new_app sample_usage))
      as (_ & H & _); [reflexivity | reflexivity | reflexivity |].
    destruct H as [_ H]; [intros [Hu | Hs]; discriminate |].
    apply H. right. reflexivity.
  - destruct (C4_identity_combination_check token_url_only_options
                (new_app sample_usage))
      as (_ & _ & H & _); [reflexivity | reflexivity | reflexivity |].
    apply H. reflexivity.
Defined.

Lemma password_branch_selected o app :
  no_auth o = false →
  unset (os_auth_token o) →
  nonempty (os_auth_url o) →
  nonempty (os_user_id o) ∨ nonempty (os_username o) →
  nonempty (os_password o) →
  nonempty (os_tenant_name o) ∨ nonempty (os_tenant_id o)
    ∨ nonempty (os_project_name o) ∨ nonempty (os_project_id o) →
  initialize_app o app = password_branch o (os_identity_api_version o) app
  ∧ select_mode_spec o = Password.
Proof.
  unfold nonempty, unset. intros Hna Htok Hurl Hu Hpw Hp.
  rewrite (initialize_app_guards o app (or_introl Hna)), password_guard.
  unfold select_mode_spec. rewrite Hna, Htok, Hurl, Hpw.
  replace (truthy (os_user_id o) || truthy (os_username o)) with true
    by (destruct Hu as [-> | ->]; rewrite ?orb_true_r; reflexivity).
  replace (truthy (os_tenant_name o) || truthy (os_tenant_id o)
           || truthy (os_project_name o) || truthy (os_project_id o)) with true
    by (destruct Hp as [-> | [-> | [-> | ->]]]; rewrite ?orb_true_r; reflexivity).
  split; reflexivity.
Qed.

(** C5. With no_auth clear, exactly auth_url, username, password and
    project_name non-empty among the credential options, and the identity
    API version unset, [initialize_app] returns in Password mode; the
    keyword dictionary given to the v3 password credential has exactly the
    keys auth_url, password, username and project_name, bound to the options
    of those names, and none of its values is empty. *)
Theorem C5_password_keyword_set o app :
  no_auth o = false →
  nonempty (os_auth_url o) →
  nonempty (os_username o) →
  nonempty (os_password o) →
  nonempty (os_project_name o) →
  unset (os_user_id o) →
  unset (os_user_domain_id o) →
  unset (os_user_domain_name o) →
  unset (os_tenant_name o) →
  unset (os_tenant_id o) →
  unset (os_project_id o) →
  unset (os_project_domain_id o) →
  unset (os_project_domain_name o) →
  unset (os_auth_token o) →
  unset (os_identity_api_version o) →
  let kwargs : gmap string pyval :=
    <["project_name" := os_project_name o]> (
    <["username" := os_username o]> (
    <["password" := os_password o]> (
    <["auth_url" := os_auth_url o]> ∅))) in
  initialize_app o app =
    set_client (ClientSession (mkSession (V3Password kwargs) (negb (insecure o)))
                              (endpoint o)) app
  ∧ (initialize_app o app).2 = Returned tt
  ∧ select_mode_spec o = Password
  ∧ mode_of_run (initialize_app o app) = Some Password
  ∧ dom kwargs = {[ "auth_url"; "password"; "username"; "project_name" ]}
  ∧ map_Forall (λ _ v, nonempty v) kwargs.
Proof.
  intros Hna Hurl Hun Hpw Hpn Huid Hudi Hudn Htn Hti Hpi Hpdi Hpdn Htok Hv kwargs.
  destruct (password_branch_selected o app Hna Htok Hurl (or_intror Hun) Hpw)
    as [Hrun Hmode]; [auto |].
  assert (Hk : initialize_app o app =
    set_client (ClientSession (mkSession (V3Password kwargs) (negb (insecure o)))
                              (endpoint o)) app).
  { rewrite Hrun. unfold password_branch.
    rewrite (proj2 (keystone_v3_true _) (or_introl Hv)).
    rewrite (set_if_unset _ _ _ Huid), (set_if_nonempty _ _ _ Hun),
      (set_if_unset _ _ _ Hpi), (set_if_nonempty _ _ _ Hpn),
      (set_if_unset _ _ _ Hudi), (set_if_unset _ _ _ Hudn),
      (set_if_unset _ _ _ Hpdi), (set_if_unset _ _ _ Hpdn).
    reflexivity. }
  split; [exact Hk |]. rewrite Hk.
  split; [reflexivity |]. split; [exact Hmode |]. split; [reflexivity |].
  split.
  - subst kwargs. rewrite !dom_insert_L, dom_empty_L. apply set_eq; intros k.
    rewrite !elem_of_union, !elem_of_singleton, elem_of_empty. tauto.
  - subst kwargs. repeat (apply map_Forall_insert_2; [assumption |]).
    apply map_Forall_empty.
Qed.

Lemma C5_password_keyword_set_witness :
  kwargs_of_run (initialize_app password_options (new_app sample_usage))
  = Some (<["project_name" := Some "demo"]> (
          <["username" := Some "admin"]> (
          <["password" := Some "secret"]> (
          <["auth_url" := Some "http://keystone:5000/v3"]> ∅)))).
Proof.
  destruct (C5_password_keyword_set password_options (new_app sample_usage))
    as [H _]; [reflexivity .. |].
  rewrite H. reflexivity.
Defined.

(** The keys of the dictionary that the password branch has built before
    it looks at the identity version. *)
Lemma user_kwargs_keys (url pw uid uname : pyval) :
  let kwargs : gmap string pyval :=
    set_if "username" uname (
    set_if "user_id" uid (
    <["password" := pw]> (
    <["auth_url" := url]> ∅))) in
  kwargs !! "tenant_id" = None
  ∧ kwargs !! "tenant_name" = None
  ∧ kwargs !! "project_id" = None
  ∧ kwargs !! "project_name" = None
  ∧ dom kwargs ⊆ {[ "auth_url"; "password"; "user_id"; "username" ]}.
Proof.
  intros kwargs. subst kwargs. unfold set_if.
  destruct (truthy uname), (truthy uid);
    (split; [| split; [| split; [| split]]]);
    try (rewrite ?lookup_insert_ne by done; apply lookup_empty);
    rewrite ?dom_insert_L, dom_empty_L; intros k;
    rewrite !elem_of_union, !elem_of_singleton, elem_of_empty; tauto.
Qed.

(** C10. With an identity API version other than "3.0" (and not unset),
    no_auth clear, no token, and auth_url, a user and a password given, an
    Options record that names its project only through project_name or
    project_id (tenant_name and tenant_id unset) still takes the password
    branch; the keyword dictionary given to the v2 password credential holds
    auth_url, password and the user keys only: it has no tenant_id,
    tenant_name, project_id or project_name key. *)
Theorem C10_v2_password_drops_project o app :
  no_auth o = false →
  unset (os_auth_token o) →
  nonempty (os_auth_url o) →
  nonempty (os_user_id o) ∨ nonempty (os_username o) →
  nonempty (os_password o) →
  unset (os_tenant_name o) →
  unset (os_tenant_id o) →
  nonempty (os_project_name o) ∨ nonempty (os_project_id o) →
  ¬ v3_selected (os_identity_api_version o) →
  let kwargs : gmap string pyval :=
    set_if "username" (os_username o) (
    set_if "user_id" (os_user_id o) (
    <["password" := os_password o]> (
    <["auth_url" := os_auth_url o]> ∅))) in
  initialize_app o app =
    set_client (ClientSession (mkSession (V2Password kwargs) (negb (insecure o)))
                              (endpoint o)) app
  ∧ select_mode_spec o = Password
  ∧ mode_of_run (initialize_app o app) = Some Password
  ∧ kwargs !! "tenant_id" = None
  ∧ kwargs !! "tenant_name" = None
  ∧ kwargs !! "project_id" = None
  ∧ kwargs !! "project_name" = None
  ∧ dom kwargs ⊆ {[ "auth_url"; "password"; "user_id"; "username" ]}.
Proof.
  intros Hna Htok Hurl Hu Hpw Htn Hti Hp Hv kwargs.
  destruct (password_branch_selected o app Hna Htok Hurl Hu Hpw)
    as [Hrun Hmode]; [tauto |].
  assert (Hk : initialize_app o app =
    set_client (ClientSession (mkSession (V2Password kwargs) (negb (insecure o)))
                              (endpoint o)) app).
  { rewrite Hrun. unfold password_branch.
    rewrite (proj2 (keystone_v3_false _) Hv).
    rewrite (set_if_unset "tenant_id" _ _ Hti), (set_if_unset "tenant_name" _ _ Htn).
    reflexivity. }
  split; [exact Hk |]. rewrite Hk.
  split; [exact Hmode |]. split; [reflexivity |].
  apply user_kwargs_keys.
Qed.

Lemma C10_v2_password_drops_project_witness :
  kwargs_of_run (initialize_app password_v2_project_options (new_app sample_usage))
  = Some (<["username" := Some "admin"]> (
          <["password" := Some "secret"]> (
          <["auth_url" := Some "http://keystone:5000/v3"]> ∅))).
Proof.
  destruct (C10_v2_password_drops_project password_v2_project_options
              (new_app sample_usage)) as [H _];
    [reflexivity | reflexivity | reflexivity | right; reflexivity | reflexivity
    | reflexivity | reflexivity | left; reflexivity | |].
  - intros [Hu | Hs]; discriminate.
  - rewrite H. reflexivity.
Defined.

(** C1. The claim fails on the code, by a slip of [_build_kwargs_based_on_version]:
    in token mode with the default identity version, the entry
    project_domain_id of the keyword dictionary is filled from
    os_project_id (and project_domain_name from os_project_name), not from
    the option of its own name.  At [token_v3_options], where the project id
    is "p1" and the project domain id is "dom1", the dictionary holds
    project_domain_id = "p1" and differs from the keyword set the claim
    describes; whatever the options, the helper binds project_domain_id to
    the project id and project_domain_name to the project name. *)
Theorem C1_token_kwargs_project_domain_slip :
  kwargs_of_run (initialize_app token_v3_options (new_app sample_usage))
    = Some (<["token" := Some "abc123"]> (
            <["auth_url" := Some "http://keystone:5000/v3"]> (
            <["project_id" := Some "p1"]> (
            <["project_domain_id" := Some "p1"]> ∅))))
  ∧ token_kwargs_v3_spec token_v3_options
    = <["token" := Some "abc123"]> (
      <["auth_url" := Some "http://keystone:5000/v3"]> (
      <["project_id" := Some "p1"]> (
      <["project_domain_id" := Some "dom1"]> ∅)))
  ∧ kwargs_of_run (initialize_app token_v3_options (new_app sample_usage))
    ≠ Some (token_kwargs_v3_spec token_v3_options)
  ∧ (∀ o, _build_kwargs_based_on_version o None !! "project_domain_id"
          = if truthy (os_project_id o) then Some (os_project_id o) else None)
  ∧ (∀ o, _build_kwargs_based_on_version o None !! "project_domain_name"
          = if truthy (os_project_name o) then Some (os_project_name o) else None).
Proof.
  split; [vm_compute; reflexivity |].
  split; [vm_compute; reflexivity |].
  split.
  - intros H.
    apply (f_equal (λ r : option (gmap string pyval),
                      match r with
                      | Some m => m !! "project_domain_id"
                      | None => None
                      end)) in H.
    vm_compute in H. discriminate H.
  - split; intros o; unfold _build_kwargs_based_on_version, populated; simpl;
      rewrite map_lookup_filter, !lookup_insert_ne, lookup_insert_eq by done;
      simpl; destruct (truthy _); reflexivity.
Qed.

(** ** Further properties of the helpers *)

Lemma populated_insert k v (m : gmap string pyval) :
  m !! k = None → populated (<[k := v]> m) = set_if k v (populated m).
Proof.
  intros Hk. unfold populated, set_if. destruct (truthy v) eqn:E.
  - apply map_filter_insert_True. exact E.
  - rewrite map_filter_insert_False by (simpl; congruence).
    rewrite delete_id by exact Hk. reflexivity.
Qed.

Lemma populated_empty : populated ∅ = ∅.
Proof. apply map_filter_empty. Qed.

Lemma populated_values (m : gmap string pyval) :
  map_Forall (λ _ x, nonempty x) (populated m).
Proof.
  apply map_Forall_lookup. intros k x H.
  apply map_lookup_filter_Some in H as [_ H]. exact H.
Qed.

Lemma set_if_values k v (m : gmap string pyval) :
  map_Forall (λ _ x, nonempty x) m →
  map_Forall (λ _ x, nonempty x) (set_if k v m).
Proof.
  intros Hm. unfold set_if. destruct (truthy v) eqn:E; [| exact Hm].
  apply map_Forall_insert_2; [exact E | exact Hm].
Qed.

Lemma set_if_lookup k v (m : gmap string pyval) :
  set_if k v m !! k = if truthy v then Some v else m !! k.
Proof. unfold set_if. destruct (truthy v); [apply lookup_insert_eq | reflexivity]. Qed.

Lemma set_if_lookup_ne k k' v (m : gmap string pyval) :
  k ≠ k' → set_if k v m !! k' = m !! k'.
Proof.
  intros Hne. unfold set_if. destruct (truthy v); [| reflexivity].
  apply lookup_insert_ne. exact Hne.
Qed.

(** The general form of [initialize_app_guards]: the mutual-exclusion check,
    then the chain of guards. *)
Lemma initialize_app_run o app :
  initialize_app o app =
  if no_auth o && truthy (os_auth_url o) then (app, Raised MSG_CONFLICT)
  else if no_auth o then no_auth_branch o app
  else if truthy (os_auth_token o)
       then token_branch o (os_identity_api_version o) app
  else if truthy (os_auth_url o)
          && (truthy (os_user_id o) || truthy (os_username o))
          && truthy (os_password o)
          && (truthy (os_tenant_name o) || truthy (os_tenant_id o)
              || truthy (os_project_name o) || truthy (os_project_id o))
       then password_branch o (os_identity_api_version o) app
  else no_credentials_branch app.
Proof.
  rewrite <- password_guard. unfold initialize_app. rewrite run_bind.
  unfold _assert_no_auth_and_auth_url_mutually_exclusive.
  destruct (no_auth o && truthy (os_auth_url o)); [reflexivity |].
  cbv beta zeta iota. destruct (no_auth o); [reflexivity |].
  destruct (truthy (os_auth_token o)); [reflexivity |].
  match goal with |- context [py_all ?l] => destruct (py_all l) end; reflexivity.
Qed.

(** X1. [_check_auth_arguments] never changes the application object and
    never reads its local [msg] while it is unbound.  Called with
    [raise_exc] false it returns its verdict, which is true exactly when the
    combination for the selected identity version is given; called with
    [raise_exc] true it returns true for a true verdict and raises the
    diagnostic of the version for a false one. *)
Theorem check_auth_arguments_verdict o v app :
  (∀ raise_exc,
     (_check_auth_arguments o v raise_exc app).1 = app
     ∧ (_check_auth_arguments o v raise_exc app).2 ≠ Raised "UnboundLocalError")
  ∧ ∃ verdict : bool,
      _check_auth_arguments o v false app = (app, Returned verdict)
      ∧ (verdict = true ↔
           (v3_selected v ∧ v3_combination o)
           ∨ (¬ v3_selected v ∧ v2_combination o))
      ∧ _check_auth_arguments o v true app =
          (app, if verdict then Returned true
                else Raised (if keystone_v3 v then MSG_V3_COMBINATION
                             else MSG_V2_COMBINATION)).
Proof.
  rewrite check_auth_arguments_run.
  generalize (keystone_v3_true v), (v3_combination_true o), (v2_combination_true o).
  unfold _check_auth_arguments, py_any; simpl.
  rewrite !truthy_and, !orb_false_r, orb_assoc.
  destruct (keystone_v3 v);
    match goal with |- context [negb ?b] => destruct b end; simpl;
    intros Hv H3 H2;
    (split; [intros [|]; simpl; (split; [reflexivity | discriminate]) |]);
    eexists; (split; [reflexivity |]); (split; [| reflexivity]);
    intuition congruence.
Qed.

(** The dict literal followed by the filter, as conditional insertions. *)
Lemma build_kwargs_closed_form o v :
  _build_kwargs_based_on_version o v =
  if keystone_v3 v then
    set_if "project_id" (os_project_id o) (
    set_if "project_name" (os_project_name o) (
    set_if "user_domain_id" (os_user_domain_id o) (
    set_if "user_domain_name" (os_user_domain_name o) (
    set_if "project_domain_id" (os_project_id o) (
    set_if "project_domain_name" (os_project_name o) ∅)))))
  else
    set_if "tenant_name" (os_tenant_name o) (
    set_if "tenant_id" (os_tenant_id o) ∅).
Proof.
  unfold _build_kwargs_based_on_version. destruct (keystone_v3 v).
  - rewrite !populated_insert, populated_empty;
      [reflexivity | rewrite ?lookup_insert_ne by done; apply lookup_empty ..].
  - rewrite !populated_insert, populated_empty;
      [reflexivity | rewrite ?lookup_insert_ne by done; apply lookup_empty ..].
Qed.

(** The dictionary of [_build_kwargs_based_on_version] has none of the keys
    that [initialize_app] adds itself. *)
Lemma build_kwargs_other_keys o v :
  _build_kwargs_based_on_version o v !! "auth_url" = None
  ∧ _build_kwargs_based_on_version o v !! "token" = None
  ∧ _build_kwargs_based_on_version o v !! "password" = None.
Proof.
  rewrite build_kwargs_closed_form.
  destruct (keystone_v3 v);
    rewrite !set_if_lookup_ne by done; repeat split; apply lookup_empty.
Qed.

(** X2. Whatever the options and the version, every value of the dictionary
    that [_build_kwargs_based_on_version] returns is non-empty, and its keys
    are among the six project and domain keys for Keystone v3 and among
    tenant_name and tenant_id otherwise; it never holds auth_url, token or
    password. *)
Theorem build_kwargs_populated_keys o v :
  map_Forall (λ _ x, nonempty x) (_build_kwargs_based_on_version o v)
  ∧ dom (_build_kwargs_based_on_version o v)
      ⊆ (if keystone_v3 v then v3_keys else v2_keys)
  ∧ _build_kwargs_based_on_version o v !! "auth_url" = None
  ∧ _build_kwargs_based_on_version o v !! "token" = None
  ∧ _build_kwargs_based_on_version o v !! "password" = None.
Proof.
  split; [apply populated_values |].
  split.
  - unfold _build_kwargs_based_on_version, populated.
    etrans; [apply dom_filter_subseteq |].
    destruct (keystone_v3 v); unfold v3_keys, v2_keys;
      rewrite !dom_insert_L, dom_empty_L; intros k;
      rewrite !elem_of_union, !elem_of_singleton, elem_of_empty; tauto.
  - apply build_kwargs_other_keys.
Qed.

(** X3. For Keystone v3 the entries project_id, project_name,
    user_domain_id and user_domain_name of the dictionary come from the
    options of the same names, each present exactly when its option is
    non-empty, and there is no tenant entry.  For another version the
    entries tenant_id and tenant_name come from the options of the same
    names, and none of the six v3 keys is present. *)
Theorem build_kwargs_provenance o v :
  let kwargs := _build_kwargs_based_on_version o v in
  let entry (x : pyval) := if truthy x then Some x else None in
  (v3_selected v →
     kwargs !! "project_id" = entry (os_project_id o)
     ∧ kwargs !! "project_name" = entry (os_project_name o)
     ∧ kwargs !! "user_domain_id" = entry (os_user_domain_id o)
     ∧ kwargs !! "user_domain_name" = entry (os_user_domain_name o)
     ∧ kwargs !! "tenant_id" = None
     ∧ kwargs !! "tenant_name" = None)
  ∧ (¬ v3_selected v →
     kwargs !! "tenant_id" = entry (os_tenant_id o)
     ∧ kwargs !! "tenant_name" = entry (os_tenant_name o)
     ∧ ∀ k, k ∈ v3_keys → kwargs !! k = None).
Proof.
  intros kwargs entry. subst kwargs entry. rewrite build_kwargs_closed_form.
  split.
  - intros Hv. apply keystone_v3_true in Hv. rewrite Hv.
    repeat split;
      rewrite ?set_if_lookup_ne by done; rewrite ?set_if_lookup;
      rewrite ?set_if_lookup_ne by done; rewrite ?lookup_empty; reflexivity.
  - intros Hv. apply keystone_v3_false in Hv. rewrite Hv.
    split; [| split].
    + rewrite set_if_lookup_ne by done. rewrite set_if_lookup, lookup_empty.
      reflexivity.
    + rewrite set_if_lookup, set_if_lookup_ne by done.
      rewrite lookup_empty. destruct (truthy _); reflexivity.
    + intros k. unfold v3_keys.
      rewrite !elem_of_union, !elem_of_singleton.
      intros Hk. rewrite !set_if_lookup_ne; [apply lookup_empty | ..];
        intros <-; intuition discriminate.
Qed.

Lemma build_kwargs_provenance_witness :
  _build_kwargs_based_on_version token_v3_options None !! "project_id"
    = Some (Some "p1")
  ∧ _build_kwargs_based_on_version token_v2_options (Some "2.0") !! "tenant_name"
    = Some (Some "demo").
Proof.
  split.
  - destruct (build_kwargs_provenance token_v3_options None) as [H _].
    destruct H as (H & _); [left; reflexivity | exact H].
  - destruct (build_kwargs_provenance token_v2_options (Some "2.0")) as [_ H].
    destruct H as (_ & H & _); [intros [Hu | Hs]; discriminate | exact H].
Defined.

(** ** Further properties of [initialize_app] *)

Lemma raised_messages_NoDup : NoDup raised_messages.
Proof. apply (bool_decide_unpack _). vm_compute. exact I. Qed.

Lemma messages_distinct :
  MSG_CONFLICT ≠ MSG_NO_AUTH_MISSING ∧ MSG_CONFLICT ≠ MSG_MISSING_AUTH_URL
  ∧ MSG_CONFLICT ≠ MSG_V3_COMBINATION ∧ MSG_CONFLICT ≠ MSG_V2_COMBINATION
  ∧ MSG_CONFLICT ≠ MSG_MISSING_CREDENTIALS
  ∧ MSG_NO_AUTH_MISSING ≠ MSG_MISSING_AUTH_URL
  ∧ MSG_NO_AUTH_MISSING ≠ MSG_V3_COMBINATION
  ∧ MSG_NO_AUTH_MISSING ≠ MSG_V2_COMBINATION
  ∧ MSG_NO_AUTH_MISSING ≠ MSG_MISSING_CREDENTIALS
  ∧ MSG_MISSING_AUTH_URL ≠ MSG_V3_COMBINATION
  ∧ MSG_MISSING_AUTH_URL ≠ MSG_V2_COMBINATION
  ∧ MSG_MISSING_AUTH_URL ≠ MSG_MISSING_CREDENTIALS
  ∧ MSG_V3_COMBINATION ≠ MSG_V2_COMBINATION
  ∧ MSG_V3_COMBINATION ≠ MSG_MISSING_CREDENTIALS
  ∧ MSG_V2_COMBINATION ≠ MSG_MISSING_CREDENTIALS.
Proof. repeat split; discriminate. Qed.

(** The outcome of a run as a table over the truth values of the options. *)
Lemma initialize_app_outcome o app :
  (initialize_app o app).2 =
  if no_auth o && truthy (os_auth_url o) then Raised MSG_CONFLICT
  else if no_auth o then
    if truthy (endpoint o) && (truthy (os_tenant_id o) || truthy (os_project_id o))
    then Returned tt else Raised MSG_NO_AUTH_MISSING
  else if truthy (os_auth_token o) then
    if truthy (os_auth_url o) then
      if keystone_v3 (os_identity_api_version o) then
        if truthy (os_project_id o)
           || truthy (os_project_name o) && truthy (os_project_domain_name o)
           || truthy (os_project_name o) && truthy (os_project_domain_id o)
        then Returned tt else Raised MSG_V3_COMBINATION
      else
        if truthy (os_tenant_id o) || truthy (os_tenant_name o)
        then Returned tt else Raised MSG_V2_COMBINATION
    else Raised MSG_MISSING_AUTH_URL
  else if truthy (os_auth_url o)
          && (truthy (os_user_id o) || truthy (os_username o))
          && truthy (os_password o)
          && (truthy (os_tenant_name o) || truthy (os_tenant_id o)
              || truthy (os_project_name o) || truthy (os_project_id o))
       then Returned tt
  else Raised MSG_MISSING_CREDENTIALS.
Proof.
  rewrite initialize_app_run.
  destruct (no_auth o && truthy (os_auth_url o)); [reflexivity |].
  destruct (no_auth o).
  { unfold no_auth_branch, py_all; simpl. rewrite truthy_or, andb_true_r.
    match goal with |- context [negb ?b] => destruct b end; reflexivity. }
  destruct (truthy (os_auth_token o)).
  { unfold token_branch, py_not.
    destruct (truthy (os_auth_url o)); [| reflexivity]. simpl.
    rewrite run_bind, check_auth_arguments_run.
    destruct (keystone_v3 _);
      match goal with |- context [if ?b then (app, Returned true) else _] =>
        destruct b end; reflexivity. }
  match goal with |- context [if ?b then password_branch _ _ _ else _] =>
    destruct b end; [| reflexivity].
  unfold password_branch. destruct (keystone_v3 _); reflexivity.
Qed.

(** X4. The table of the exceptions of [initialize_app].  The six
    messages are pairwise distinct, and each is raised for exactly one
    combination of options.  None of them is raised exactly when no_auth is
    given with an endpoint and a tenant or project id, or a token is given
    with an auth URL and the identity combination of the version, or the
    password fields are complete; a run that returns is in one of these
    three cases, and in the first and the third case the run does return. *)
Theorem initialize_app_outcome_table o app :
  let r := (initialize_app o app).2 in
  let v := os_identity_api_version o in
  let no_auth_complete :=
    no_auth o = true ∧ unset (os_auth_url o) ∧ nonempty (endpoint o)
    ∧ (nonempty (os_tenant_id o) ∨ nonempty (os_project_id o)) in
  let token_complete :=
    no_auth o = false ∧ nonempty (os_auth_token o) ∧ nonempty (os_auth_url o)
    ∧ ((v3_selected v ∧ v3_combination o) ∨ (¬ v3_selected v ∧ v2_combination o)) in
  NoDup raised_messages
  ∧ (r = Raised MSG_CONFLICT ↔
       no_auth o = true ∧ nonempty (os_auth_url o))
  ∧ (r = Raised MSG_NO_AUTH_MISSING ↔
       no_auth o = true ∧ unset (os_auth_url o)
       ∧ (unset (endpoint o)
          ∨ (unset (os_tenant_id o) ∧ unset (os_project_id o))))
  ∧ (r = Raised MSG_MISSING_AUTH_URL ↔
       no_auth o = false ∧ nonempty (os_auth_token o) ∧ unset (os_auth_url o))
  ∧ (r = Raised MSG_V3_COMBINATION ↔
       no_auth o = false ∧ nonempty (os_auth_token o)
       ∧ nonempty (os_auth_url o) ∧ v3_selected v ∧ ¬ v3_combination o)
  ∧ (r = Raised MSG_V2_COMBINATION ↔
       no_auth o = false ∧ nonempty (os_auth_token o)
       ∧ nonempty (os_auth_url o) ∧ ¬ v3_selected v ∧ ¬ v2_combination o)
  ∧ (r = Raised MSG_MISSING_CREDENTIALS ↔ select_mode_spec o = Invalid)
  ∧ ((∀ msg, msg ∈ raised_messages → r ≠ Raised msg) ↔
       no_auth_complete ∨ token_complete ∨ select_mode_spec o = Password)
  ∧ (r = Returned tt →
       no_auth_complete ∨ token_complete ∨ select_mode_spec o = Password)
  ∧ (no_auth_complete → r = Returned tt)
  ∧ (select_mode_spec o = Password → r = Returned tt).
Proof.
  intros r v no_auth_complete token_complete.
  assert (Hcases : r = Returned tt ∨ ∃ msg, msg ∈ raised_messages ∧ r = Raised msg).
  { subst r. rewrite initialize_app_outcome.
    repeat case_if; first [ left; reflexivity | right; eexists; split;
      [| reflexivity]; in_raised_messages ]. }
  assert (Htable :
    (r = Raised MSG_CONFLICT ↔
       no_auth o = true ∧ nonempty (os_auth_url o))
    ∧ (r = Raised MSG_NO_AUTH_MISSING ↔
         no_auth o = true ∧ unset (os_auth_url o)
         ∧ (unset (endpoint o)
            ∨ (unset (os_tenant_id o) ∧ unset (os_project_id o))))
    ∧ (r = Raised MSG_MISSING_AUTH_URL ↔
         no_auth o = false ∧ nonempty (os_auth_token o) ∧ unset (os_auth_url o))
    ∧ (r = Raised MSG_V3_COMBINATION ↔
         no_auth o = false ∧ nonempty (os_auth_token o)
         ∧ nonempty (os_auth_url o) ∧ v3_selected v ∧ ¬ v3_combination o)
    ∧ (r = Raised MSG_V2_COMBINATION ↔
         no_auth o = false ∧ nonempty (os_auth_token o)
         ∧ nonempty (os_auth_url o) ∧ ¬ v3_selected v ∧ ¬ v2_combination o)
    ∧ (r = Raised MSG_MISSING_CREDENTIALS ↔ select_mode_spec o = Invalid)
    ∧ (r = Returned tt ↔
         no_auth_complete ∨ token_complete ∨ select_mode_spec o = Password)).
  { clear Hcases. subst r v no_auth_complete token_complete.
    rewrite initialize_app_outcome.
    destruct messages_distinct
      as (D1 & D2 & D3 & D4 & D5 & D6 & D7 & D8 & D9 & D10 & D11 & D12 & D13
          & D14 & D15).
    generalize (keystone_v3_true (os_identity_api_version o)).
    generalize (keystone_v3 (os_identity_api_version o)). intros kv3 Hv.
    generalize (v3_combination_true o).
    generalize (truthy (os_project_id o)
      || truthy (os_project_name o) && truthy (os_project_domain_name o)
      || truthy (os_project_name o) && truthy (os_project_domain_id o)).
    intros b3 H3.
    generalize (v2_combination_true o).
    generalize (truthy (os_tenant_id o) || truthy (os_tenant_name o)).
    intros b2 H2.
    unfold select_mode_spec, nonempty, unset.
    generalize (truthy (os_user_id o) || truthy (os_username o))
               (truthy (os_password o))
               (truthy (os_tenant_name o) || truthy (os_tenant_id o)
                || truthy (os_project_name o) || truthy (os_project_id o)).
    intros uu pw tt'.
    destruct (no_auth o), (truthy (os_auth_url o)), (truthy (os_auth_token o)),
      (truthy (endpoint o)), (truthy (os_tenant_id o)), (truthy (os_project_id o));
      simpl; repeat case_if; simpl in *;
      repeat split; intros; try congruence;
      intuition (try congruence). }
  destruct Htable as (T1 & T2 & T3 & T4 & T5 & T6 & Tret).
  split; [exact raised_messages_NoDup |].
  split; [exact T1 |]. split; [exact T2 |]. split; [exact T3 |].
  split; [exact T4 |]. split; [exact T5 |]. split; [exact T6 |].
  split; [| split; [| split]].
  - split.
    + intros Hnone. destruct Hcases as [Hr | (msg & Hin & Hr)].
      * apply Tret, Hr.
      * exfalso. exact (Hnone msg Hin Hr).
    + intros Hc msg Hin Hr. apply Tret in Hc. rewrite Hc in Hr. discriminate Hr.
  - apply Tret.
  - intros Hc. apply Tret. left. exact Hc.
  - intros Hc. apply Tret. right. right. exact Hc.
Qed.

Lemma initialize_app_outcome_table_witness :
  (initialize_app no_auth_options (new_app sample_usage)).2 = Returned tt
  ∧ (initialize_app password_options (new_app sample_usage)).2 = Returned tt.
Proof.
  split.
  - destruct (initialize_app_outcome_table no_auth_options (new_app sample_usage))
      as (_ & _ & _ & _ & _ & _ & _ & _ & _ & H & _).
    apply H. split; [reflexivity |]. split; [reflexivity |].
    split; [reflexivity |]. left. reflexivity.
  - destruct (initialize_app_outcome_table password_options (new_app sample_usage))
      as (_ & _ & _ & _ & _ & _ & _ & _ & _ & _ & H).
    apply H. reflexivity.
Defined.

(** X5. What a run does to the application object.  A run that returns has
    set [self.client] to a client built with verify = not insecure and with
    the endpoint option, and has written nothing to stderr.  A run that
    raises one of the exceptions of the file leaves [self.client] as it
    was, and has written to stderr only when the message is the
    missing-credentials one, in which case it appended the usage text.  The
    parser is never touched. *)
Theorem initialize_app_effect o app :
  let app' := (initialize_app o app).1 in
  parser_usage app' = parser_usage app
  ∧ ((initialize_app o app).2 = Returned tt →
     stderr app' = stderr app
     ∧ ∃ c, client app' = Some c
            ∧ client_verify c = negb (insecure o)
            ∧ client_endpoint c = endpoint o)
  ∧ (∀ msg, (initialize_app o app).2 = Raised msg →
     client app' = client app
     ∧ stderr app' =
         if decide (msg = MSG_MISSING_CREDENTIALS)
         then (stderr app ++ [parser_usage app])%list else stderr app).
Proof.
  intros app'. subst app'. rewrite initialize_app_run.
  destruct (no_auth o && truthy (os_auth_url o)).
  { simpl. split; [reflexivity |]. split; [discriminate |].
    intros msg [= <-]. message_cases. split; reflexivity. }
  destruct (no_auth o).
  { unfold no_auth_branch.
    match goal with |- context [negb ?b] => destruct b end; simpl.
    - split; [reflexivity |]. split; [| discriminate].
      intros _. split; [reflexivity |]. eexists. repeat split.
    - split; [reflexivity |]. split; [discriminate |].
      intros msg [= <-]. message_cases. split; reflexivity. }
  destruct (truthy (os_auth_token o)).
  { unfold token_branch, py_not. destruct (truthy (os_auth_url o)); simpl.
    - rewrite run_bind, check_auth_arguments_run.
      destruct (keystone_v3 _);
        match goal with |- context [if ?b then (app, Returned true) else _] =>
          destruct b end; simpl;
        (split; [reflexivity |]);
        first [ split; [| discriminate]; intros _; split; [reflexivity |];
                eexists; repeat split
              | split; [discriminate |]; intros msg [= <-]; message_cases;
                split; reflexivity ].
    - split; [reflexivity |]. split; [discriminate |].
      intros msg [= <-]. message_cases. split; reflexivity. }
  match goal with |- context [if ?b then password_branch _ _ _ else _] =>
    destruct b end.
  - unfold password_branch. destruct (keystone_v3 _); simpl;
      (split; [reflexivity |]); (split; [| discriminate]);
      intros _; (split; [reflexivity |]); eexists; repeat split.
  - simpl. split; [reflexivity |]. split; [discriminate |].
    intros msg [= <-]. message_cases. split; reflexivity.
Qed.

Lemma initialize_app_effect_witness :
  (∃ c, client (initialize_app password_options (new_app sample_usage)).1 = Some c
        ∧ client_verify c = true ∧ client_endpoint c = None)
  ∧ client (initialize_app no_options (new_app sample_usage)).1 = None
  ∧ stderr (initialize_app no_options (new_app sample_usage)).1 = [sample_usage].
Proof.
  split.
  - destruct (initialize_app_effect password_options (new_app sample_usage))
      as (_ & H & _).
    destruct H as [_ H]; [reflexivity | exact H].
  - destruct (initialize_app_effect no_options (new_app sample_usage))
      as (_ & _ & H).
    destruct (H MSG_MISSING_CREDENTIALS) as [Hc Hs]; [reflexivity |].
    split; [exact Hc | exact Hs].
Defined.

(** X6. The credential of a session client.  When a run returns and has
    set a session client, every value of the keyword dictionary given to
    the credential constructor is non-empty and its auth_url entry is the
    auth URL option; the constructor is one of [identity.v3] exactly when
    the identity version is "3.0" or unset; it is a token constructor
    exactly when the token option is non-empty, and then the dictionary
    holds the token and no password, else it holds the password and no
    token. *)
Theorem session_credential_invariant o app s e :
  (initialize_app o app).2 = Returned tt →
  client (initialize_app o app).1 = Some (ClientSession s e) →
  let kwargs := auth_kwargs (session_auth s) in
  map_Forall (λ _ x, nonempty x) kwargs
  ∧ kwargs !! "auth_url" = Some (os_auth_url o)
  ∧ auth_is_v3 (session_auth s) = keystone_v3 (os_identity_api_version o)
  ∧ (mode_of_auth (session_auth s) = Token ↔ nonempty (os_auth_token o))
  ∧ (nonempty (os_auth_token o) →
     kwargs !! "token" = Some (os_auth_token o) ∧ kwargs !! "password" = None)
  ∧ (unset (os_auth_token o) →
     kwargs !! "password" = Some (os_password o) ∧ kwargs !! "token" = None).
Proof.
  rewrite initialize_app_run. unfold nonempty, unset.
  destruct (no_auth o && truthy (os_auth_url o)); [discriminate |].
  destruct (no_auth o).
  { unfold no_auth_branch.
    match goal with |- context [negb ?b] => destruct b end; simpl;
      discriminate. }
  destruct (truthy (os_auth_token o)) eqn:Htok.
  { unfold token_branch, py_not.
    destruct (truthy (os_auth_url o)) eqn:Hurl; simpl; [| discriminate].
    rewrite run_bind, check_auth_arguments_run.
    assert (Hval : map_Forall (λ _ x, nonempty x)
              (_build_kwargs_based_on_version o (os_identity_api_version o)))
      by apply populated_values.
    pose proof (build_kwargs_other_keys o (os_identity_api_version o))
      as (Hau & Htk & Hpw).
    destruct (keystone_v3 _);
      match goal with |- context [if ?b then (app, Returned true) else _] =>
        destruct b end; simpl; try discriminate;
      intros _ [= <- <-]; simpl;
      (split; [repeat (apply map_Forall_insert_2; [assumption |]); exact Hval |]);
      (split; [rewrite lookup_insert_ne by done; apply lookup_insert_eq |]);
      (split; [reflexivity |]); (split; [tauto |]);
      (split; [| discriminate]); intros _;
      (split; [apply lookup_insert_eq |]);
      rewrite !lookup_insert_ne by done; exact Hpw. }
  match goal with |- context [if ?b then password_branch _ _ _ else _] =>
    destruct b eqn:Hguard end; [| discriminate].
  apply andb_true_iff in Hguard as [Hguard _].
  apply andb_true_iff in Hguard as [Hguard Hpw].
  apply andb_true_iff in Hguard as [Hurl _].
  unfold password_branch.
  destruct (keystone_v3 _); simpl; intros _ [= <- <-]; simpl;
    (split; [repeat apply set_if_values;
             repeat (apply map_Forall_insert_2; [assumption |]);
             apply map_Forall_empty |]);
    (split; [rewrite !set_if_lookup_ne by done;
             rewrite lookup_insert_ne by done; apply lookup_insert_eq |]);
    (split; [reflexivity |]);
    (split; [split; discriminate |]);
    (split; [discriminate |]); intros _;
    rewrite !set_if_lookup_ne by done;
    (split; [apply lookup_insert_eq |]);
    rewrite !lookup_insert_ne by done; apply lookup_empty.
Qed.

Lemma session_credential_invariant_witness :
  map_Forall (λ _ x, nonempty x)
    (<["token" := Some "abc123"]> (
     <["auth_url" := Some "http://keystone:5000/v3"]> (
     _build_kwargs_based_on_version token_v2_options (Some "2.0")))).
Proof.
  destruct (session_credential_invariant token_v2_options (new_app sample_usage)
    (mkSession (V2Token
       (<["token" := Some "abc123"]> (
        <["auth_url" := Some "http://keystone:5000/v3"]> (
        _build_kwargs_based_on_version token_v2_options (Some "2.0")))))
       true)
    (Some "http://barbican:9311")) as [H _];
    [reflexivity | reflexivity | exact H].
Defined.

Lemma password_mode_run o app :
  select_mode_spec o = Password →
  initialize_app o app = password_branch o (os_identity_api_version o) app.
Proof.
  intros Hmode. rewrite initialize_app_run. revert Hmode.
  unfold select_mode_spec.
  destruct (no_auth o); [discriminate |]. simpl.
  destruct (truthy (os_auth_token o)); [discriminate |].
  match goal with |- context [if ?b then Password else _] => destruct b end;
    [reflexivity | discriminate].
Qed.

Lemma set_if_dom_bound k v (m : gmap string pyval) (X : gset string) :
  k ∈ X → dom m ⊆ X → dom (set_if k v m) ⊆ X.
Proof.
  intros Hk Hm. unfold set_if. destruct (truthy v); [| exact Hm].
  rewrite dom_insert_L. intros x. rewrite elem_of_union, elem_of_singleton.
  intros [-> | Hx]; [exact Hk | apply Hm, Hx].
Qed.

Lemma insert_dom_bound k v (m : gmap string pyval) (X : gset string) :
  k ∈ X → dom m ⊆ X → dom (<[k := v]> m) ⊆ X.
Proof.
  intros Hk Hm. rewrite dom_insert_L. intros x.
  rewrite elem_of_union, elem_of_singleton.
  intros [-> | Hx]; [exact Hk | apply Hm, Hx].
Qed.

(** X7. In password mode the run returns (password mode applies no
    identity-combination check), and the keyword dictionary holds auth_url
    and password, bound to the options of those names, and beside them only
    entries that come from the option of their own name, each present
    exactly when that option is non-empty.  For Keystone v3 these are
    user_id, username and the six project and domain keys, and there is no
    tenant entry; for another version they are user_id, username, tenant_id
    and tenant_name, and none of the six v3 keys is present.  The
    dictionary has no other key. *)
Theorem password_kwargs_provenance o app :
  select_mode_spec o = Password →
  let entry (x : pyval) := if truthy x then Some x else None in
  ∃ kwargs,
    initialize_app o app =
      set_client
        (ClientSession
           (mkSession
              ((if keystone_v3 (os_identity_api_version o)
                then V3Password else V2Password) kwargs)
              (negb (insecure o)))
           (endpoint o)) app
    ∧ kwargs !! "auth_url" = Some (os_auth_url o)
    ∧ kwargs !! "password" = Some (os_password o)
    ∧ kwargs !! "user_id" = entry (os_user_id o)
    ∧ kwargs !! "username" = entry (os_username o)
    ∧ dom kwargs ⊆
        {[ "auth_url"; "password"; "user_id"; "username" ]}
        ∪ (if keystone_v3 (os_identity_api_version o) then v3_keys else v2_keys)
    ∧ (v3_selected (os_identity_api_version o) →
       kwargs !! "project_id" = entry (os_project_id o)
       ∧ kwargs !! "project_name" = entry (os_project_name o)
       ∧ kwargs !! "user_domain_id" = entry (os_user_domain_id o)
       ∧ kwargs !! "user_domain_name" = entry (os_user_domain_name o)
       ∧ kwargs !! "project_domain_id" = entry (os_project_domain_id o)
       ∧ kwargs !! "project_domain_name" = entry (os_project_domain_name o)
       ∧ kwargs !! "tenant_id" = None
       ∧ kwargs !! "tenant_name" = None)
    ∧ (¬ v3_selected (os_identity_api_version o) →
       kwargs !! "tenant_id" = entry (os_tenant_id o)
       ∧ kwargs !! "tenant_name" = entry (os_tenant_name o)
       ∧ ∀ k, k ∈ v3_keys → kwargs !! k = None).
Proof.
  intros Hmode entry. subst entry. rewrite (password_mode_run o app Hmode).
  unfold password_branch.
  destruct (keystone_v3 (os_identity_api_version o)) eqn:Hv.
  - eexists. split; [reflexivity |].
    split; [| split; [| split; [| split; [| split; [| split]]]]].
    + rewrite !set_if_lookup_ne by done.
      rewrite lookup_insert_ne by done. apply lookup_insert_eq.
    + rewrite !set_if_lookup_ne by done. apply lookup_insert_eq.
    + rewrite !set_if_lookup_ne by done. rewrite set_if_lookup.
      rewrite !lookup_insert_ne by done. rewrite lookup_empty. reflexivity.
    + rewrite !set_if_lookup_ne by done. rewrite set_if_lookup.
      rewrite !set_if_lookup_ne by done.
      rewrite !lookup_insert_ne by done. rewrite lookup_empty. reflexivity.
    + repeat (first [apply set_if_dom_bound | apply insert_dom_bound];
              [in_key_set |]).
      rewrite dom_empty_L. intros x Hx. apply elem_of_empty in Hx. destruct Hx.
    + intros _.
      repeat split;
        rewrite ?set_if_lookup_ne by done; rewrite ?set_if_lookup;
        rewrite ?set_if_lookup_ne by done;
        rewrite !lookup_insert_ne by done; rewrite lookup_empty; reflexivity.
    + intros Hn. apply keystone_v3_false in Hn. congruence.
  - eexists. split; [reflexivity |].
    split; [| split; [| split; [| split; [| split; [| split]]]]].
    + rewrite !set_if_lookup_ne by done.
      rewrite lookup_insert_ne by done. apply lookup_insert_eq.
    + rewrite !set_if_lookup_ne by done. apply lookup_insert_eq.
    + rewrite !set_if_lookup_ne by done. rewrite set_if_lookup.
      rewrite !lookup_insert_ne by done. rewrite lookup_empty. reflexivity.
    + rewrite !set_if_lookup_ne by done. rewrite set_if_lookup.
      rewrite !set_if_lookup_ne by done.
      rewrite !lookup_insert_ne by done. rewrite lookup_empty. reflexivity.
    + repeat (first [apply set_if_dom_bound | apply insert_dom_bound];
              [in_key_set |]).
      rewrite dom_empty_L. intros x Hx. apply elem_of_empty in Hx. destruct Hx.
    + intros Hy. apply keystone_v3_true in Hy. congruence.
    + intros _. split; [| split].
      * rewrite set_if_lookup_ne by done. rewrite set_if_lookup.
        rewrite !set_if_lookup_ne by done.
        rewrite !lookup_insert_ne by done. rewrite lookup_empty. reflexivity.
      * rewrite set_if_lookup. rewrite !set_if_lookup_ne by done.
        rewrite !lookup_insert_ne by done. rewrite lookup_empty. reflexivity.
      * intros k. unfold v3_keys. rewrite !elem_of_union, !elem_of_singleton.
        intros Hk.
        rewrite !set_if_lookup_ne, !lookup_insert_ne;
          [apply lookup_empty | intros <-; intuition discriminate ..].
Qed.

Lemma password_kwargs_provenance_witness :
  ∃ kwargs,
    client (initialize_app password_v3_domain_options (new_app sample_usage)).1
      = Some (ClientSession (mkSession (V3Password kwargs) false)
                            (Some "http://barbican:9311"))
    ∧ kwargs !! "project_domain_id" = Some (Some "dom1")
    ∧ kwargs !! "project_domain_name" = Some (Some "Default").
Proof.
  destruct (password_kwargs_provenance password_v3_domain_options
              (new_app sample_usage))
    as (kw & Hrun & _ & _ & _ & _ & _ & H3 & _); [reflexivity |].
  destruct H3 as (_ & _ & _ & _ & Hid & Hname & _); [right; reflexivity |].
  exists kw. rewrite Hrun. split; [reflexivity | split; assumption].
Defined.

(** X8. In token mode a run that returns has given the credential a scope:
    the keyword dictionary is the one of [_build_kwargs_based_on_version]
    with auth_url and token added, and it holds a project_id or project_name
    entry for Keystone v3 and a tenant_id or tenant_name entry otherwise. *)
Theorem token_kwargs_scoped o app :
  no_auth o = false →
  nonempty (os_auth_token o) →
  (initialize_app o app).2 = Returned tt →
  let v := os_identity_api_version o in
  let kwargs : gmap string pyval :=
    <["token" := os_auth_token o]> (
    <["auth_url" := os_auth_url o]> (_build_kwargs_based_on_version o v)) in
  initialize_app o app =
    set_client
      (ClientSession
         (mkSession ((if keystone_v3 v then V3Token else V2Token) kwargs)
                    (negb (insecure o)))
         (endpoint o)) app
  ∧ (v3_selected v →
     is_Some (kwargs !! "project_id") ∨ is_Some (kwargs !! "project_name"))
  ∧ (¬ v3_selected v →
     is_Some (kwargs !! "tenant_id") ∨ is_Some (kwargs !! "tenant_name")).
Proof.
  intros Hna Htok Hret v kwargs. subst v kwargs. unfold nonempty in Htok.
  revert Hret. rewrite initialize_app_run, Hna, Htok. simpl.
  unfold token_branch, py_not.
  destruct (truthy (os_auth_url o)); simpl; [| discriminate].
  rewrite run_bind, check_auth_arguments_run.
  rewrite !lookup_insert_ne by done.
  rewrite build_kwargs_closed_form.
  destruct (keystone_v3 (os_identity_api_version o)) eqn:Hv.
  - destruct (truthy (os_project_id o)) eqn:Hpid; simpl.
    + intros _. split; [reflexivity |]. split.
      * intros _. left. rewrite set_if_lookup, Hpid. eauto.
      * intros Hn. apply keystone_v3_false in Hn. congruence.
    + destruct (truthy (os_project_name o)) eqn:Hpn; simpl.
      * match goal with |- context [if ?b then (app, Returned true) else _] =>
          destruct b end; simpl; [| discriminate].
        intros _. split; [reflexivity |]. split.
        -- intros _. right. rewrite set_if_lookup_ne by done.
           rewrite set_if_lookup, Hpn. eauto.
        -- intros Hn. apply keystone_v3_false in Hn. congruence.
      * discriminate.
  - destruct (truthy (os_tenant_id o)) eqn:Hti; simpl.
    + intros _. split; [reflexivity |]. split.
      * intros Hy. apply keystone_v3_true in Hy. congruence.
      * intros _. left. rewrite set_if_lookup_ne by done.
        rewrite set_if_lookup, Hti. eauto.
    + destruct (truthy (os_tenant_name o)) eqn:Htn; simpl; [| discriminate].
      intros _. split; [reflexivity |]. split.
      * intros Hy. apply keystone_v3_true in Hy. congruence.
      * intros _. right. rewrite set_if_lookup, Htn. eauto.
Qed.

Lemma token_kwargs_scoped_witness :
  is_Some ((<["token" := Some "abc123"]> (
            <["auth_url" := Some "http://keystone:5000/v3"]> (
            _build_kwargs_based_on_version token_v2_options (Some "2.0"))))
           !! "tenant_id")
  ∨ is_Some ((<["token" := Some "abc123"]> (
              <["auth_url" := Some "http://keystone:5000/v3"]> (
              _build_kwargs_based_on_version token_v2_options (Some "2.0"))))
             !! "tenant_name").
Proof.
  destruct (token_kwargs_scoped token_v2_options (new_app sample_usage))
    as (_ & _ & H); [reflexivity | reflexivity | reflexivity |].
  apply H. intros [Hu | Hs]; discriminate.
Defined.

(** ** Empty strings and environment defaults *)

Lemma truthy_blank v : truthy (blank_to_none v) = truthy v.
Proof. unfold blank_to_none. destruct (truthy v) eqn:E; [exact E | reflexivity]. Qed.

Lemma blank_nonempty v : truthy v = true → blank_to_none v = v.
Proof. unfold blank_to_none. intros ->. reflexivity. Qed.

Lemma keystone_v3_blank v : keystone_v3 (blank_to_none v) = keystone_v3 v.
Proof. destruct v as [[|c s]|]; reflexivity. Qed.

Lemma set_if_blank k v (m : gmap string pyval) :
  set_if k (blank_to_none v) m = set_if k v m.
Proof.
  unfold set_if. rewrite truthy_blank.
  destruct (truthy v) eqn:E; [| reflexivity]. rewrite (blank_nonempty v E).
  reflexivity.
Qed.

Lemma py_or_blank a b :
  truthy a || truthy b = true →
  blank_to_none a `or` blank_to_none b = a `or` b.
Proof.
  unfold py_or. rewrite truthy_blank.
  destruct (truthy a) eqn:Ea; simpl.
  - intros _. apply blank_nonempty, Ea.
  - apply blank_nonempty.
Qed.

(** X9. Giving an option as the empty string is the same as not giving it:
    replacing every empty-string option other than the endpoint by None
    changes nothing in the run of [initialize_app], neither the outcome nor
    the client nor what is written. *)
Theorem blank_options_equivalent o app :
  initialize_app (blank_options_to_none o) app = initialize_app o app.
Proof.
  rewrite !initialize_app_run. cbn [blank_options_to_none no_auth os_auth_url
    os_auth_token os_user_id os_username os_password os_tenant_name
    os_tenant_id os_project_name os_project_id os_identity_api_version].
  rewrite !truthy_blank.
  destruct (no_auth o && truthy (os_auth_url o)); [reflexivity |].
  destruct (no_auth o).
  { unfold no_auth_branch, py_all.
    cbn [blank_options_to_none endpoint os_tenant_id os_project_id insecure
         forallb].
    rewrite !truthy_or, !truthy_blank, !andb_true_r.
    destruct (truthy (endpoint o)); [| reflexivity]. simpl.
    destruct (truthy (os_tenant_id o) || truthy (os_project_id o)) eqn:E;
      [| reflexivity].
    simpl. rewrite (py_or_blank _ _ E). reflexivity. }
  destruct (truthy (os_auth_token o)) eqn:Htok.
  { unfold token_branch, py_not.
    cbn [blank_options_to_none os_auth_url os_auth_token endpoint insecure].
    rewrite truthy_blank.
    destruct (truthy (os_auth_url o)) eqn:Hurl; [| reflexivity]. simpl.
    rewrite !run_bind, !check_auth_arguments_run, !build_kwargs_closed_form.
    cbn [blank_options_to_none os_project_id os_project_name
         os_project_domain_name os_project_domain_id os_tenant_id
         os_tenant_name os_user_domain_id os_user_domain_name].
    rewrite !truthy_blank, !keystone_v3_blank, !set_if_blank.
    rewrite (blank_nonempty _ Htok), (blank_nonempty _ Hurl).
    reflexivity. }
  match goal with |- context [if ?b then password_branch _ _ _ else _] =>
    destruct b eqn:Hguard end; [| reflexivity].
  apply andb_true_iff in Hguard as [Hguard _].
  apply andb_true_iff in Hguard as [Hguard Hpw].
  apply andb_true_iff in Hguard as [Hurl _].
  unfold password_branch.
  cbn [blank_options_to_none os_auth_url os_password os_user_id os_username
       os_project_id os_project_name os_project_domain_name
       os_project_domain_id os_tenant_id os_tenant_name os_user_domain_id
       os_user_domain_name endpoint insecure].
  rewrite !keystone_v3_blank, !set_if_blank.
  rewrite (blank_nonempty _ Hpw), (blank_nonempty _ Hurl).
  reflexivity.
Qed.

(** X10. The default of [--os-project-id] is read from the environment
    variable OS_PROJECT__ID, while the help text of the option names
    env[OS_PROJECT_ID].  So with an empty command line the variable
    OS_PROJECT_ID is never looked at: two environments that differ only in
    it give the same options and the same run. *)
Theorem project_id_environment_variable env env' session_insecure app :
  (∀ name, name ≠ "OS_PROJECT_ID" → env name = env' name) →
  default_options env session_insecure = default_options env' session_insecure
  ∧ initialize_app (default_options env session_insecure) app
    = initialize_app (default_options env' session_insecure) app
  ∧ os_project_id (default_options env session_insecure) = env "OS_PROJECT__ID"
  ∧ ∃ a, a ∈ build_option_parser_arguments
         ∧ arg_option_strings a = ["--os-project-id"]
         ∧ arg_default_env a = Some "OS_PROJECT__ID"
         ∧ contains "env[OS_PROJECT_ID]" (arg_help a) = true
         ∧ contains "env[OS_PROJECT__ID]" (arg_help a) = false.
Proof.
  intros Henv.
  assert (Heq : default_options env session_insecure
                = default_options env' session_insecure).
  { vm_compute. rewrite !Henv by discriminate. reflexivity. }
  split; [exact Heq |]. split; [rewrite Heq; reflexivity |].
  split; [reflexivity |].
  eexists. split.
  - unfold build_option_parser_arguments.
    do 10 apply list_elem_of_further. apply list_elem_of_here.
  - repeat split; reflexivity.
Qed.

Lemma project_id_environment_variable_witness :
  initialize_app (default_options documented_env false) (new_app sample_usage)
  = initialize_app
      (default_options
         (λ name, if decide (name = "OS_PROJECT_ID") then None
                  else documented_env name) false)
      (new_app sample_usage).
Proof.
  destruct (project_id_environment_variable documented_env
              (λ name, if decide (name = "OS_PROJECT_ID") then None
                       else documented_env name)
              false (new_app sample_usage)) as (_ & H & _); [| exact H].
  intros name Hne. simpl. destruct (decide (name = "OS_PROJECT_ID")) as [E | _];
    [contradiction | reflexivity].
Defined.

(** ** What a run does not depend on *)

(** X11. With no_auth given and no auth URL, the run depends on the
    endpoint, the tenant id, the project id and the insecure flag only: two
    option records that agree on these run alike, whatever their token,
    user, password, domain and version options hold. *)
Theorem no_auth_ignores_credentials o o' app :
  no_auth o = true → no_auth o' = true →
  unset (os_auth_url o) → unset (os_auth_url o') →
  endpoint o = endpoint o' →
  os_tenant_id o = os_tenant_id o' →
  os_project_id o = os_project_id o' →
  insecure o = insecure o' →
  initialize_app o app = initialize_app o' app.
Proof.
  intros Hna Hna' Hurl Hurl' He Ht Hp Hi.
  rewrite (initialize_app_guards o app (or_intror Hurl)), Hna.
  rewrite (initialize_app_guards o' app (or_intror Hurl')), Hna'.
  unfold no_auth_branch. rewrite He, Ht, Hp, Hi. reflexivity.
Qed.

Lemma no_auth_ignores_credentials_witness :
  initialize_app no_auth_token_options (new_app sample_usage)
  = initialize_app
      (with_identity_api_version (Some "2.0") no_auth_token_options)
      (new_app sample_usage).
Proof.
  apply (no_auth_ignores_credentials no_auth_token_options
           (with_identity_api_version (Some "2.0") no_auth_token_options)
           (new_app sample_usage)); reflexivity.
Defined.

(** X12. The identity API version matters only through the test
    [not api_version or api_version == '3.0']: two versions on the same side
    of that test give the same run.  So every non-empty version other than
    the string "3.0", such as "3" or "2.0", selects the Keystone v2
    constructors and keys. *)
Theorem version_only_through_v3_test o v v' app :
  keystone_v3 v = keystone_v3 v' →
  initialize_app (with_identity_api_version v o) app
  = initialize_app (with_identity_api_version v' o) app.
Proof.
  intros Hv. rewrite !initialize_app_run.
  cbn [with_identity_api_version no_auth os_auth_url os_auth_token os_user_id
       os_username os_password os_tenant_name os_tenant_id os_project_name
       os_project_id os_identity_api_version].
  destruct (no_auth o && truthy (os_auth_url o)); [reflexivity |].
  destruct (no_auth o); [reflexivity |].
  destruct (truthy (os_auth_token o)).
  { unfold token_branch.
    cbn [with_identity_api_version os_auth_url os_auth_token endpoint insecure].
    destruct (py_not (os_auth_url o)); [reflexivity |].
    rewrite !run_bind, !check_auth_arguments_run, !build_kwargs_closed_form.
    cbn [with_identity_api_version os_project_id os_project_name
         os_project_domain_name os_project_domain_id os_tenant_id
         os_tenant_name os_user_domain_id os_user_domain_name].
    rewrite Hv. reflexivity. }
  match goal with |- context [if ?b then password_branch _ _ _ else _] =>
    destruct b end; [| reflexivity].
  unfold password_branch.
  cbn [with_identity_api_version os_auth_url os_password os_user_id os_username
       os_project_id os_project_name os_project_domain_name
       os_project_domain_id os_tenant_id os_tenant_name os_user_domain_id
       os_user_domain_name endpoint insecure].
  rewrite Hv. reflexivity.
Qed.

Lemma version_only_through_v3_test_witness :
  initialize_app (with_identity_api_version (Some "3") token_v2_options)
                 (new_app sample_usage)
  = initialize_app (with_identity_api_version (Some "2.0") token_v2_options)
                   (new_app sample_usage).
Proof.
  apply (version_only_through_v3_test token_v2_options (Some "3") (Some "2.0")
           (new_app sample_usage)).
  reflexivity.
Defined.
